(** * Shopping-assistant gateway (src/app.py): admission core, mirrors and
      conversation assembly, embedded as Rocq functions.

    Conventions of the embedding.
    - Python [str] values are [string]s; [str.upper] and [str.strip] are
      computed on ASCII text and are the runtime's on any other text (see
      [Py.upper] and [Py.strip]).
    - [time.time()] is an input of every function that reads the clock and
      is an integer number of seconds ([Z]); the arithmetic on it is exact.
    - A Python [dict] used as a map is a [gmap]; a [defaultdict(list)] is
      read with the total lookup [!!!], whose default is the empty list.
    - A raised exception is the [Raise] constructor of [Py.result]. *)

From Stdlib Require Import ZArith List Ascii String Lia Bool.
From stdpp Require Import base option list strings gmap pretty.

Set Warnings "-register-all".

Open Scope string_scope.
Open Scope list_scope.
Open Scope Z_scope.

(* ===================================================================== *)
(** ** Python values, exceptions and the built-ins the program uses *)
(* ===================================================================== *)
Module Py.

(** The exception classes the modelled code can meet.  [RequestException]
    stands for what [requests.get] raises (connection error, timeout),
    [HTTPError] for [raise_for_status]; a JSON decoding error is a
    [ValueError], as in Python. *)
Inductive exn :=
  | KeyError | IndexError | TypeError | AttributeError | ValueError
  | RequestException | HTTPError.

(** Outcome of evaluating an expression: a value or a raised exception. *)
Inductive result (A : Type) :=
  | Ok (a : A)
  | Raise (e : exn).
Arguments Ok {A} a.
Arguments Raise {A} e.

#[global] Instance result_ret : MRet result := λ A a, Ok a.
#[global] Instance result_bind : MBind result := λ A B f m,
  match m with Ok a => f a | Raise e => Raise e end.

(** Statements that update an object and may raise: the object after the
    statement is returned on both outcomes, since an exception does not
    undo the assignments made before it. *)
Definition M (S A : Type) : Type := S → result A * S.

#[global] Instance M_ret {S} : MRet (M S) := λ A a s, (Ok a, s).
#[global] Instance M_bind {S} : MBind (M S) := λ A B f m s,
  match m s with
  | (Ok a, s') => f a s'
  | (Raise e, s') => (Raise e, s')
  end.

Definition lift {S A} (r : result A) : M S A := λ s, (r, s).
Definition modify {S} (f : S → S) : M S unit := λ s, (Ok tt, f s).

(** [try: body  except Exception: handler] *)
Definition try_except {S A} (body : M S A) (handler : exn → M S A) : M S A :=
  λ s, match body s with
       | (Ok a, s') => (Ok a, s')
       | (Raise e, s') => handler e s'
       end.

(** [for x in l: body x] *)
Fixpoint for_each {S A} (l : list A) (body : A → M S unit) : M S unit :=
  match l with
  | [] => mret tt
  | x :: l' => body x ≫= λ _, for_each l' body
  end.

(** Values: what [json.loads] / [response.json()] produce, and instances
    of SDK classes ([VObj], the attributes by name).  A [dict] keeps its
    items in insertion order, each key once.  A [float] is kept as its
    literal: no arithmetic on floats is modelled. *)
Inductive value :=
  | VNone
  | VBool (b : bool)
  | VInt (n : Z)
  | VFloat (lit : string)
  | VStr (s : string)
  | VList (l : list value)
  | VDict (d : list (string * value))
  | VObj (attrs : list (string * value)).

Fixpoint assoc (k : string) (d : list (string * value)) : option value :=
  match d with
  | [] => None
  | (k', v) :: d' => if String.eqb k k' then Some v else assoc k d'
  end.

(** [v.get(key, dflt)]: only a [dict] has the method. *)
Definition get (v : value) (key : string) (dflt : value) : result value :=
  match v with
  | VDict d => Ok (default dflt (assoc key d))
  | _ => Raise AttributeError
  end.

(** [v[key]] for a [str] key. *)
Definition getitem (v : value) (key : string) : result value :=
  match v with
  | VDict d => match assoc key d with Some x => Ok x | None => Raise KeyError end
  | _ => Raise TypeError
  end.

(** [v[0]] *)
Definition getitem0 (v : value) : result value :=
  match v with
  | VList (x :: _) => Ok x
  | VList [] => Raise IndexError
  | VStr (String c _) => Ok (VStr (String c EmptyString))
  | VStr EmptyString => Raise IndexError
  | VDict _ => Raise KeyError
  | _ => Raise TypeError
  end.

(** [hasattr(v, name)] and [v.name] for a data attribute. *)
Definition hasattr (v : value) (name : string) : bool :=
  match v with
  | VObj attrs => bool_decide (is_Some (assoc name attrs))
  | _ => false
  end.

Definition getattr (v : value) (name : string) : result value :=
  match v with
  | VObj attrs =>
      match assoc name attrs with Some x => Ok x | None => Raise AttributeError end
  | _ => Raise AttributeError
  end.

Fixpoint chars (s : string) : list value :=
  match s with
  | EmptyString => []
  | String c s' => VStr (String c EmptyString) :: chars s'
  end.

(** The elements a [for] loop over [v] visits. *)
Definition iter (v : value) : result (list value) :=
  match v with
  | VList l => Ok l
  | VStr s => Ok (chars s)
  | VDict d => Ok (map (λ kv, VStr (fst kv)) d)
  | _ => Raise TypeError
  end.

(** The text holds ASCII characters only (codes below 128); any other
    text is held as the bytes of its encoding. *)
Fixpoint is_ascii (s : string) : bool :=
  match s with
  | EmptyString => true
  | String c s' => (N_of_ascii c <? 128)%N && is_ascii s'
  end.

(** [str.upper] on ASCII text: the letters a..z are mapped, every other
    character is left as it is. *)
Definition upper_ascii (c : ascii) : ascii :=
  let n := N_of_ascii c in
  if ((97 <=? n) && (n <=? 122))%N then ascii_of_N (n - 32) else c.

Fixpoint ascii_upper (s : string) : string :=
  match s with
  | EmptyString => EmptyString
  | String c s' => String (upper_ascii c) (ascii_upper s')
  end.

(** ASCII white space as [str.isspace] has it: TAB, LF, VT, FF, CR, the
    separators 28..31 and the space. *)
Definition is_space (c : ascii) : bool :=
  let n := N_of_ascii c in
  (((9 <=? n) && (n <=? 13)) || ((28 <=? n) && (n <=? 32)))%N.

Fixpoint lstrip (s : string) : string :=
  match s with
  | EmptyString => EmptyString
  | String c s' => if is_space c then lstrip s' else s
  end.

Fixpoint rstrip (s : string) : string :=
  match s with
  | EmptyString => EmptyString
  | String c s' =>
      match rstrip s' with
      | EmptyString => if is_space c then EmptyString else String c EmptyString
      | r => String c r
      end
  end.

(** [str.strip()] on ASCII text. *)
Definition ascii_strip (s : string) : string := rstrip (lstrip s).

(** What the interpreter and the [json] module provide and is not
    re-implemented here: [repr] of floats, containers and objects, the
    JSON decoder ([json.loads], raising on text that is not JSON), and the
    methods [str.upper] and [str.strip] on text that is not ASCII, where
    they follow the Unicode case mapping and the Unicode white space. *)
Class Runtime := {
  repr : value → string;
  json_loads : string → result value;
  str_upper : string → string;
  str_strip : string → string
}.

(** [s.upper()]: computed on ASCII text, the runtime's on any other. *)
Definition upper `{Runtime} (s : string) : string :=
  if is_ascii s then ascii_upper s else str_upper s.
#[global] Arguments upper {_} s : simpl never.

(** [v.upper()]: a [str] method. *)
Definition upper_method `{Runtime} (v : value) : result string :=
  match v with
  | VStr s => Ok (upper s)
  | _ => Raise AttributeError
  end.

(** [s.strip()]: computed on ASCII text, the runtime's on any other. *)
Definition strip `{Runtime} (s : string) : string :=
  if is_ascii s then ascii_strip s else str_strip s.
#[global] Arguments strip {_} s : simpl never.

(** [v.strip()]: a [str] method. *)
Definition strip_method `{Runtime} (v : value) : result string :=
  match v with
  | VStr s => Ok (strip s)
  | _ => Raise AttributeError
  end.

(** [str(v)] *)
Definition str `{Runtime} (v : value) : string :=
  match v with
  | VStr s => s
  | VNone => "None"
  | VBool true => "True"
  | VBool false => "False"
  | VInt n => pretty n
  | _ => repr v
  end.

(** A runtime for the examples, which call [repr] on no value, decode no
    text that is JSON and hold ASCII text only. *)
Definition bare_runtime : Runtime :=
  {| repr := λ _, "<repr>"; json_loads := λ _, Raise ValueError;
     str_upper := λ s, s; str_strip := λ s, s |}.

End Py.

(* ===================================================================== *)
(** ** The rate limiter: [class RateLimiter] *)
(* ===================================================================== *)
Module RateLimiter.

(** One entry of [self.limits]. *)
Record limit_config := LimitConfig { max_requests : Z; window : Z }.

Definition user_limit : limit_config := LimitConfig 10 60.
Definition admin_limit : limit_config := LimitConfig 50 60.

#[global] Instance limit_config_inhabited : Inhabited limit_config :=
  populate (LimitConfig 0 0).

(** [self.limits], fixed by [__init__] and never written again. *)
Definition limits : gmap string limit_config :=
  <["user" := user_limit]> (<["admin" := admin_limit]> ∅).

(** [self.limits.get(role, self.limits['user'])] *)
Definition limits_get (role : string) : limit_config :=
  default (limits !!! "user") (limits !! role).

(** [self.requests]: user id to the list of admitted request times. *)
Abbreviation requests := (gmap string (list Z)).

(** [RateLimiter.__init__]: no request recorded. *)
Definition init : requests := ∅.

(** The list comprehension of [is_allowed]: the times [req_time] with
    [current_time - req_time < window], in their order. *)
Definition clean (current_time w : Z) (l : list Z) : list Z :=
  List.filter (fun req_time => current_time - req_time <? w) l.

(** [RateLimiter.is_allowed]; [current_time] is the value of [time.time()].
    Returns the pair of the source and the limiter after the call. *)
Definition is_allowed (self : requests) (current_time : Z)
    (user_id role : string) : (bool * limit_config) * requests :=
  let limit_config := limits_get role in
  let self1 :=
    <[user_id := clean current_time (window limit_config) (self !!! user_id)]> self in
  if Z.of_nat (length (self1 !!! user_id)) >=? max_requests limit_config
  then ((false, limit_config), self1)
  else ((true, limit_config),
        <[user_id := (self1 !!! user_id) ++ [current_time]]> self1).

(** A request reaching the limiter: the clock reading at the call, the
    user id and the role. *)
Record call := Call { at_time : Z; by_user : string; as_role : string }.

Definition check (self : requests) (c : call) : (bool * limit_config) * requests :=
  is_allowed self (at_time c) (by_user c) (as_role c).

(** The limiter after a sequence of calls, and the log of their verdicts. *)
Definition final (self : requests) (cs : list call) : requests :=
  fold_left (λ s c, snd (check s c)) cs self.

Fixpoint run (self : requests) (cs : list call) : list (call * bool) :=
  match cs with
  | [] => []
  | c :: cs' => (c, fst (fst (check self c))) :: run (snd (check self c)) cs'
  end.

(** The calls of a log that were admitted. *)
Definition admitted (log : list (call * bool)) : list call :=
  map fst (List.filter snd log).

(** The clock readings of a sequence of calls never go back. *)
Fixpoint chronological_from (t : Z) (cs : list call) : bool :=
  match cs with
  | [] => true
  | c :: cs' => (t <=? at_time c) && chronological_from (at_time c) cs'
  end.

Definition chronological (cs : list call) : bool :=
  match cs with
  | [] => true
  | c :: cs' => chronological_from (at_time c) cs'
  end.

(** [a] was made by [user_id] and is less than [w] seconds old at [now]:
    the test the list comprehension of [is_allowed] applies. *)
Definition recent (user_id : string) (now w : Z) (a : call) : bool :=
  bool_decide (by_user a = user_id) && (now - at_time a <? w).

(** [a] was made by [user_id] as [role] in the period of [w] seconds that
    ends at [T]. *)
Definition in_period (user_id role : string) (T w : Z) (a : call) : bool :=
  bool_decide (by_user a = user_id) && bool_decide (as_role a = role)
  && (T - at_time a <? w) && (at_time a <=? T).

(** The check as section 4.1 of the specification words it: what is pruned
    is what is older than [now - window_seconds]. *)
Definition spec_prune (now w : Z) (l : list Z) : list Z :=
  List.filter (λ t, negb (t <? now - w)) l.

Definition spec_check (self : requests) (now : Z) (user_id role : string)
    : (bool * limit_config) * requests :=
  let policy := default user_limit (limits !! role) in
  let kept := spec_prune now (window policy) (self !!! user_id) in
  if Z.of_nat (length kept) >=? max_requests policy
  then ((false, policy), <[user_id := kept]> self)
  else ((true, policy), <[user_id := kept ++ [now]]> self).

(** A user, a role and three calls; the last one comes after the window
    of the first two has passed. *)
Definition sample_calls : list call :=
  [Call 0 "u1" "user"; Call 1 "u1" "user"; Call 70 "u1" "admin"].

(** A record of ten requests made at time 0, consulted at time 60. *)
Definition ten_at_zero : requests := {[ "u1" := repeat 0 10 ]}.

End RateLimiter.

(* ===================================================================== *)
(** ** The authentication gate: [require_auth] *)
(* ===================================================================== *)
Module AuthGate.
Import RateLimiter.

(** [request.headers.get(...)] for the three identity headers: [None] when
    the header is absent, else its text. *)
Record headers := Headers {
  X_User_ID : option string;
  X_User_Role : option string;
  X_User_Name : option string
}.

(** Truth value of what [headers.get] returns: [None] and the empty string
    are false. *)
Definition truthy (h : option string) : bool :=
  match h with
  | Some s => negb (String.eqb s "")
  | None => false
  end.

(** What the decorated function returns: one of the three error bodies
    (with the fields that vary) or the result of the wrapped handler. *)
Inductive reply (R : Type) :=
  | MissingCredentials
  | InvalidRole (provided_role : string)
  | RateLimited (user_role : string) (limit : limit_config)
  | Handled (r : R).
Arguments MissingCredentials {R}.
Arguments InvalidRole {R} provided_role.
Arguments RateLimited {R} user_role limit.
Arguments Handled {R} r.

(** The HTTP status of an error body. *)
Definition status_code {R} (r : reply R) : option Z :=
  match r with
  | MissingCredentials => Some 401
  | InvalidRole _ => Some 400
  | RateLimited _ _ => Some 429
  | Handled _ => None
  end.

(** ["retry_after"] of the 429 body. *)
Definition retry_after {R} (r : reply R) : option Z :=
  match r with
  | RateLimited _ limit => Some (window limit)
  | _ => None
  end.

(** [decorated_function]: [f] is the wrapped handler, applied to the
    identity put on the request; [rate_limiter] is the module-level
    limiter and [now] the clock reading if [is_allowed] is called. *)
Definition require_auth {R} (f : string → string → string → R)
    (rate_limiter : requests) (now : Z) (h : headers) : reply R * requests :=
  match X_User_ID h, X_User_Role h, X_User_Name h with
  | Some user_id, Some user_role, Some user_name =>
      if negb (forallb truthy [X_User_ID h; X_User_Role h; X_User_Name h])
      then (MissingCredentials, rate_limiter)
      else if negb (bool_decide (user_role ∈ ["user"; "admin"]))
      then (InvalidRole user_role, rate_limiter)
      else
        let '((allowed, limit_config), rate_limiter') :=
          is_allowed rate_limiter now user_id user_role in
        if negb allowed
        then (RateLimited user_role limit_config, rate_limiter')
        else (Handled (f user_id user_role user_name), rate_limiter')
  | _, _, _ => (MissingCredentials, rate_limiter)
  end.

(** A sequence of requests, each with the clock reading at its arrival:
    the replies and the limiter after the last one. *)
Fixpoint serve {R} (f : string → string → string → R)
    (rate_limiter : requests) (reqs : list (Z * headers))
    : list (reply R) * requests :=
  match reqs with
  | [] => ([], rate_limiter)
  | (now, h) :: reqs' =>
      let '(r, rl) := require_auth f rate_limiter now h in
      let '(rs, rl') := serve f rl reqs' in
      (r :: rs, rl')
  end.

(** A header is missing: absent or empty. *)
Definition lacks_header (h : headers) : bool :=
  negb (truthy (X_User_ID h) && truthy (X_User_Role h) && truthy (X_User_Name h)).

(** The role header is neither ["user"] nor ["admin"]. *)
Definition bad_role (h : headers) : bool :=
  match X_User_Role h with
  | Some r => negb (String.eqb r "user" || String.eqb r "admin")
  | None => true
  end.

(** A header that is present and empty, taken as absent. *)
Definition absent_if_empty (o : option string) : option string :=
  match o with
  | Some s => if String.eqb s "" then None else Some s
  | None => None
  end.

Definition drop_empty (h : headers) : headers :=
  Headers (absent_if_empty (X_User_ID h)) (absent_if_empty (X_User_Role h))
          (absent_if_empty (X_User_Name h)).

(** The reply is one of the two rejections that come before the limiter. *)
Definition rejected_early {R} (r : reply R) : bool :=
  match r with
  | MissingCredentials | InvalidRole _ => true
  | _ => false
  end.

(** Requests for the examples: no header at all, an unknown role, an empty
    name, and a well-formed one. *)
Definition no_headers : headers := Headers None None None.
Definition superadmin : headers := Headers (Some "7") (Some "superadmin") (Some "Ann").
Definition empty_name : headers := Headers (Some "7") (Some "user") (Some "").
Definition valid_user : headers := Headers (Some "7") (Some "user") (Some "Ann").

End AuthGate.

(* ===================================================================== *)
(** ** The upstream data source as the mirrors see it *)
(* ===================================================================== *)
Module Http.
Import Py.

(** What [requests.get] returns: the status and what [response.json()]
    gives (a decoding error when the body is not JSON). *)
Record response := Response { status : Z; json : result value }.

(** [response.raise_for_status()]: client and server error statuses raise. *)
Definition raise_for_status (r : response) : result unit :=
  if (400 <=? status r) && (status r <? 600) then Raise HTTPError else Ok tt.

(** Answers of the upstream for the examples: status 200 with the body
    [{"items": null}]; status 200 with an item list whose second element is
    a number; status 500; status 200 with three cart items, the second
    without [user_id]. *)
Definition items_null : result response :=
  Ok (Response 200 (Ok (VDict [("items", VNone)]))).

Definition second_item_a_number : result response :=
  Ok (Response 200 (Ok (VDict [("items",
    VList [VDict [("product_id", VInt 2); ("name", VStr "ink")]; VInt 5])]))).

Definition server_error : result response :=
  Ok (Response 500 (Raise ValueError)).

Definition three_items : result response :=
  Ok (Response 200 (Ok (VDict [("items",
    VList [VDict [("user_id", VInt 7); ("name", VStr "pen")];
           VDict [("name", VStr "ink")];
           VDict [("user_id", VStr "7"); ("name", VStr "cap")]])]))).

End Http.

(* ===================================================================== *)
(** ** The product mirror: [class ProductCatalog] *)
(* ===================================================================== *)
Module ProductCatalog.
Import Py Http.

(** One entry of [self.products]; an absent key gives [None]. *)
Record product := Product {
  id : value; name : value; category : value; description : value;
  price : value; stock : value; image_url : value
}.

Record t := Catalog { products : list product; last_updated : option string }.

(** The [dict] display in the loop of [_load_products]. *)
Definition product_of (p : value) : result product :=
  id ← get p "product_id" VNone;
  name ← get p "name" VNone;
  category ← get p "category" VNone;
  description ← get p "description" VNone;
  price ← get p "price" VNone;
  stock ← get p "quantity" VNone;
  image_url ← get p "image_url" VNone;
  mret (Product id name category description price stock image_url).

(** The body of the loop of [_load_products]. *)
Definition append_product (p : value) : M t unit :=
  entry ← lift (product_of p);
  modify (λ self, Catalog (products self ++ [entry]) (last_updated self)).

(** [_load_products]: [fetched] is the outcome of [requests.get] and [now]
    the text of [datetime.now().isoformat()]. *)
Definition _load_products (fetched : result response) (now : string) : M t bool :=
  try_except
    (response ← lift fetched;
     _ ← lift (raise_for_status response);
     data ← lift (json response);
     _ ← modify (λ self, Catalog [] (last_updated self));
     items ← lift (get data "items" (VList []));
     l ← lift (iter items);
     _ ← for_each l append_product;
     _ ← modify (λ self, Catalog (products self) (Some now));
     mret true)
    (λ e, mret false).

Definition refresh := _load_products.

Definition get_all_products (self : t) : list product := products self.

(** [__init__]: empty, then one load. *)
Definition init (fetched : result response) (now : string) : t :=
  snd (_load_products fetched now (Catalog [] None)).

(** A catalog that holds one product. *)
Definition stocked : t :=
  Catalog [Product (VInt 1) (VStr "pen") VNone VNone (VInt 3) (VInt 9) VNone]
          (Some "2024-01-01T00:00:00").

End ProductCatalog.

(* ===================================================================== *)
(** ** The cart mirror: [class ShoppingCart] *)
(* ===================================================================== *)
Module ShoppingCart.
Import Py Http.

Record cart_item := CartItem {
  cart_item_id : value; product_id : value; name : value;
  price : value; quantity : value; image_url : value
}.

Record t := Cart {
  cart_items : gmap string (list cart_item);
  last_updated : option string
}.

Section WithRuntime.
Context `{Runtime}.

(** [str(item.get("user_id", "0"))] *)
Definition bucket_of (item : value) : result string :=
  user_id ← get item "user_id" (VStr "0");
  mret (str user_id).

(** The [dict] display appended to the bucket. *)
Definition cart_item_of (item : value) : result cart_item :=
  cart_item_id ← get item "cart_item_id" VNone;
  product_id ← get item "product_id" VNone;
  name ← get item "name" VNone;
  price ← get item "price" VNone;
  quantity ← get item "quantity" VNone;
  image_url ← get item "image_url" VNone;
  mret (CartItem cart_item_id product_id name price quantity image_url).

Definition set_cart_items (f : gmap string (list cart_item) → gmap string (list cart_item))
    : M t unit :=
  modify (λ self, Cart (f (cart_items self)) (last_updated self)).

(** The body of the loop of [_load_cart]. *)
Definition add_item (item : value) : M t unit :=
  user_id ← lift (bucket_of item);
  _ ← set_cart_items (λ m,
        match m !! user_id with None => <[user_id := []]> m | Some _ => m end);
  entry ← lift (cart_item_of item);
  set_cart_items (λ m, <[user_id := (m !!! user_id) ++ [entry]]> m).

(** [_load_cart]: [fetched] is the outcome of [requests.get] and [now] the
    text of [datetime.now().isoformat()]. *)
Definition _load_cart (fetched : result response) (now : string) : M t bool :=
  try_except
    (response ← lift fetched;
     _ ← lift (raise_for_status response);
     data ← lift (json response);
     _ ← set_cart_items (λ _, ∅);
     items ← lift (get data "items" (VList []));
     l ← lift (iter items);
     _ ← for_each l add_item;
     _ ← modify (λ self, Cart (cart_items self) (Some now));
     mret true)
    (λ e, mret false).

Definition refresh := _load_cart.

(** The bucket and the entry of an item that is a [dict] with the items [d]. *)
Definition bucket (d : list (string * value)) : string :=
  str (default (VStr "0") (assoc "user_id" d)).

Definition entry (d : list (string * value)) : cart_item :=
  CartItem (default VNone (assoc "cart_item_id" d))
           (default VNone (assoc "product_id" d))
           (default VNone (assoc "name" d))
           (default VNone (assoc "price" d))
           (default VNone (assoc "quantity" d))
           (default VNone (assoc "image_url" d)).

End WithRuntime.

(** [get_user_cart]; the user id is the text of the identity header, on
    which [str] is the identity. *)
Definition get_user_cart (self : t) (user_id : string) : list cart_item :=
  default [] (cart_items self !! user_id).

Definition get_cart_count (self : t) (user_id : string) : Z :=
  Z.of_nat (length (get_user_cart self user_id)).

(** A cart mirror that holds one item of user 7. *)
Definition filled : t :=
  Cart {[ "7" := [CartItem (VInt 1) (VInt 1) (VStr "pen") (VInt 3) (VInt 2) VNone] ]}
       (Some "2024-01-01T00:00:00").

End ShoppingCart.

(* ===================================================================== *)
(** ** The assistant: [class ShoppingAssistant] *)
(* ===================================================================== *)
Module ShoppingAssistant.
Import Py.

(** [oci...models.Message.ROLE_*] *)
Inductive message_role := ROLE_SYSTEM | ROLE_USER | ROLE_ASSISTANT.

#[global] Instance message_role_eq_dec : EqDecision message_role.
Proof. solve_decision. Defined.

Record TextContent := Text { text : value }.
Record Message := Msg { role : message_role; content : list TextContent }.

Record GenericChatRequest := ChatRequest {
  messages : list Message;
  max_tokens : value; temperature : value;
  frequency_penalty : value; presence_penalty : value;
  top_p : value; top_k : value
}.

Record ChatDetails := Details {
  model_id : value;
  chat_request : GenericChatRequest;
  compartment_id : value
}.

(** What [self.client.chat] returns: an object with the attribute [data]. *)
Record chat_result := ChatResult { data : value }.

(** The fields of the assistant the modelled methods use; [cfg] is the
    content of the configuration file. *)
Record t := Assistant {
  cfg : value;
  catalog : ProductCatalog.t;
  cart : ShoppingCart.t
}.

(** [ConfigLoader.get] with the keys given in order. *)
Definition cfg_get (self : t) (keys : list string) : result value :=
  fold_left (λ r key, r ≫= λ v, getitem v key) keys (Ok (cfg self)).

(** The history entries the specification keeps, matched on the role as it
    is written there: ["user"], ["model"] or ["assistant"]. *)
Definition spec_history_message (msg : value) : option Message :=
  match getitem msg "role", getitem msg "content" with
  | Ok (VStr r), Ok c =>
      if String.eqb r "user" then Some (Msg ROLE_USER [Text c])
      else if String.eqb r "model" || String.eqb r "assistant"
      then Some (Msg ROLE_ASSISTANT [Text c])
      else None
  | _, _ => None
  end.

(** The message list as sections 3 and 4.4 of the specification word it. *)
Definition spec_messages (prompt : string) (user_message : value)
    (history : list value) : list Message :=
  Msg ROLE_SYSTEM [Text (VStr prompt)]
  :: omap spec_history_message history ++ [Msg ROLE_USER [Text user_message]].

(** The role a history role is mapped to: the comparison is made on the
    text upper-cased by [str.upper]. *)
Definition role_of `{Runtime} (r : string) : option message_role :=
  if String.eqb (upper r) "USER" then Some ROLE_USER
  else if String.eqb (upper r) "MODEL" || String.eqb (upper r) "ASSISTANT"
  then Some ROLE_ASSISTANT
  else None.

(** A history entry the loop handles without an exception: an object with
    a text as its role and, when the role is mapped, with a content. *)
Definition well_formed `{Runtime} (msg : value) : bool :=
  match getitem msg "role" with
  | Ok (VStr r) =>
      match role_of r, getitem msg "content" with
      | Some _, Raise _ => false
      | _, _ => true
      end
  | _ => false
  end.

(** The message a well-formed entry contributes, if any. *)
Definition kept `{Runtime} (msg : value) : option Message :=
  match getitem msg "role", getitem msg "content" with
  | Ok (VStr r), Ok c => (λ ro, Msg ro [Text c]) <$> role_of r
  | _, _ => None
  end.

Definition is_system (m : Message) : bool := bool_decide (role m = ROLE_SYSTEM).

(** Data for the examples: a configuration, an assistant with empty
    mirrors, history entries with an upper-case role, a role that is not a
    text and an unknown role, and payloads of the inference service. *)
Definition sample_cfg : value :=
  VDict [("chat_parameters",
            VDict [("max_tokens", VInt 600); ("temperature", VInt 1);
                   ("frequency_penalty", VInt 0); ("presence_penalty", VInt 0);
                   ("top_p", VFloat "0.75"); ("top_k", VInt 0)]);
         ("service", VDict [("model_ocid", VStr "ocid1.model")]);
         ("oci", VDict [("compartment_id", VStr "ocid1.compartment")])].

Definition sample : t :=
  Assistant sample_cfg (ProductCatalog.Catalog [] None) (ShoppingCart.Cart ∅ None).

Definition shouted : value := VDict [("role", VStr "USER"); ("content", VStr "hi")].
Definition role_null : value := VDict [("role", VNone); ("content", VStr "hi")].
Definition tool_entry : value := VDict [("role", VStr "tool"); ("content", VStr "x")].

Definition choice (s : string) : value :=
  VObj [("message", VObj [("content", VList [VObj [("text", VStr s)]])])].

Definition nested_payload (s : string) : value :=
  VObj [("chat_response", VObj [("choices", VList [choice s])])].

Definition no_choices : value :=
  VObj [("chat_response", VObj [("choices", VList [])])].

Definition none_beside_choices : value :=
  VObj [("chat_response", VNone); ("choices", VList [choice "Hi"])].

Section WithRuntime.
Context `{Runtime}.

(** [_build_system_prompt]: the text depends on the catalog and cart
    summaries, whose number formatting is not modelled; the method is a
    parameter, and may raise as the summaries may. *)
Variable _build_system_prompt : t → string → result string.

(** One round of the history loop of [_build_chat_request]: the message to
    append, or [None] for [continue]. *)
Definition history_message (msg : value) : result (option Message) :=
  r ← getitem msg "role";
  role_str ← upper_method r;
  if String.eqb role_str "USER" then
    c ← getitem msg "content";
    mret (Some (Msg ROLE_USER [Text c]))
  else if bool_decide (role_str ∈ ["MODEL"; "ASSISTANT"]) then
    c ← getitem msg "content";
    mret (Some (Msg ROLE_ASSISTANT [Text c]))
  else mret None.

Fixpoint history_loop (l : list value) (messages : list Message)
    : result (list Message) :=
  match l with
  | [] => Ok messages
  | msg :: l' =>
      o ← history_message msg;
      history_loop l' (match o with Some m => messages ++ [m] | None => messages end)
  end.

(** The first part of [_build_chat_request], up to the last
    [messages.append]: the message list. *)
Definition chat_messages (self : t) (user_message history : value)
    (user_id : string) : result (list Message) :=
  prompt ← _build_system_prompt self user_id;
  let messages := [Msg ROLE_SYSTEM [Text (VStr prompt)]] in
  l ← iter history;
  messages ← history_loop l messages;
  mret (messages ++ [Msg ROLE_USER [Text user_message]]).

Definition _build_chat_request (self : t) (user_message history : value)
    (user_id : string) : result GenericChatRequest :=
  messages ← chat_messages self user_message history user_id;
  params ← cfg_get self ["chat_parameters"];
  max_tokens ← getitem params "max_tokens";
  temperature ← getitem params "temperature";
  frequency_penalty ← getitem params "frequency_penalty";
  presence_penalty ← getitem params "presence_penalty";
  top_p ← getitem params "top_p";
  top_k ← getitem params "top_k";
  mret (ChatRequest messages max_tokens temperature frequency_penalty
          presence_penalty top_p top_k).

Definition _build_chat_detail (self : t) (chat_request : GenericChatRequest)
    : result ChatDetails :=
  model_id ← cfg_get self ["service"; "model_ocid"];
  compartment_id ← cfg_get self ["oci"; "compartment_id"];
  mret (Details model_id chat_request compartment_id).

(** [x.choices[0].message.content[0].text.strip()] on objects. *)
Definition text_of_choices (x : value) : result string :=
  x ← getattr x "choices"; x ← getitem0 x;
  x ← getattr x "message"; x ← getattr x "content"; x ← getitem0 x;
  x ← getattr x "text"; strip_method x.

(** [payload["chat_response"]["choices"][0]["message"]["content"][0]["text"].strip()] *)
Definition text_of_payload (payload : value) : result string :=
  x ← getitem payload "chat_response"; x ← getitem x "choices"; x ← getitem0 x;
  x ← getitem x "message"; x ← getitem x "content"; x ← getitem0 x;
  x ← getitem x "text"; strip_method x.

Definition _extract_response_text (chat_response : chat_result) : result string :=
  let data := data chat_response in
  if hasattr data "chat_response" then
    x ← getattr data "chat_response"; text_of_choices x
  else if hasattr data "choices" then
    text_of_choices data
  else
    match json_loads (str data) ≫= text_of_payload with
    | Ok s => Ok s
    | Raise _ => Ok (str data)
    end.

(** The extractor as section 4.5 of the specification words it: each shape
    is tried in order, the first that yields a text wins, the text of the
    payload is the last resort. *)
Definition spec_extract (chat_response : chat_result) : string :=
  let data := data chat_response in
  match getattr data "chat_response" ≫= text_of_choices with
  | Ok s => s
  | Raise _ =>
      match text_of_choices data with
      | Ok s => s
      | Raise _ =>
          match json_loads (str data) ≫= text_of_payload with
          | Ok s => s
          | Raise _ => str data
          end
      end
  end.

(** *** [refresh_data] and [get_response] *)

(** What the collaborators answer during one call of [get_response], and
    how long each part of the call takes on the wall clock. *)
Inductive phase :=
  | Refresh | BuildRequest | DebugPrint | BuildDetail | Chat | Extract.

Record env := Env {
  cart_fetch : result Http.response;
  catalog_fetch : result Http.response;
  cart_now : string;
  catalog_now : string;
  client_chat : ChatDetails → result chat_result;
  cost : phase → Z
}.

(** The assistant and the wall clock. *)
Record world := World { assistant : t; clock : Z }.

Definition on_cart {A} (m : M ShoppingCart.t A) : M t A :=
  λ self, let '(r, c) := m (cart self) in (r, Assistant (cfg self) (catalog self) c).

Definition on_catalog {A} (m : M ProductCatalog.t A) : M t A :=
  λ self, let '(r, c) := m (catalog self) in (r, Assistant (cfg self) c (cart self)).

Definition refresh_data (e : env) : M t bool :=
  cart_success ← on_cart (ShoppingCart.refresh (cart_fetch e) (cart_now e));
  catalog_success ← on_catalog (ProductCatalog.refresh (catalog_fetch e) (catalog_now e));
  mret (cart_success && catalog_success).

(** [time.time()] *)
Definition time_time : M world Z := λ w, (Ok (clock w), w).

(** A part of the call: it runs on the assistant and takes [cost e ph]. *)
Definition during {A} (e : env) (ph : phase) (m : M t A) : M world A :=
  λ w, let '(r, a) := m (assistant w) in (r, World a (clock w + cost e ph)).

Definition get_response (e : env) (user_message history : value)
    (user_id : string) : M world (string * Z) :=
  _ ← during e Refresh (refresh_data e);
  start ← time_time;
  chat_request ← during e BuildRequest
    (λ self, (_build_chat_request self user_message history user_id, self));
  _ ← during e DebugPrint (mret tt);
  chat_detail ← during e BuildDetail (λ self, (_build_chat_detail self chat_request, self));
  response ← during e Chat (lift (client_chat e chat_detail));
  stop ← time_time;
  let elapsed := stop - start in
  text ← during e Extract (lift (_extract_response_text response));
  mret (text, elapsed).

End WithRuntime.

(** One call for the examples: both upstream fetches answer 500, the
    inference service answers the text ["Hi"]; the refresh takes 7 seconds,
    building the request 2, the inference call 3, the extraction 1. *)
Definition sample_env : env :=
  Env Http.server_error Http.server_error
      "2024-01-02T00:00:00" "2024-01-02T00:00:01"
      (λ _, Ok (ChatResult (nested_payload "Hi")))
      (λ ph, match ph with
             | Refresh => 7 | BuildRequest => 2 | Chat => 3 | Extract => 1
             | DebugPrint | BuildDetail => 0
             end).

End ShoppingAssistant.

(* ===================================================================== *)
(** ** Sequences of calls of one caller *)
(* ===================================================================== *)
Module Traffic.
Import RateLimiter.

(** Calls of one user under one role at the given clock readings. *)
Definition calls_of (user_id role : string) (ts : list Z) : list call :=
  map (λ t, Call t user_id role) ts.

(** Any two of the readings are less than [w] apart. *)
Definition close_together (w : Z) (ts : list Z) : bool :=
  forallb (λ t, forallb (λ t', t' - t <? w) ts) ts.

(** The call was made by [user_id]. *)
Definition made_by (user_id : string) (c : call) : bool :=
  bool_decide (by_user c = user_id).

(** Every time of the record is at least [w] old at [now]. *)
Definition all_expired (now w : Z) (l : list Z) : bool :=
  forallb (λ t, w <=? now - t) l.

End Traffic.

(* ===================================================================== *)
(** ** What the mirrors hold after a load *)
(* ===================================================================== *)
Module Snapshot.
Import Py.

(** The catalog entry of an item that is a [dict] with the items [d]. *)
Definition product_entry (d : list (string * value)) : ProductCatalog.product :=
  ProductCatalog.Product
    (default VNone (assoc "product_id" d)) (default VNone (assoc "name" d))
    (default VNone (assoc "category" d)) (default VNone (assoc "description" d))
    (default VNone (assoc "price" d)) (default VNone (assoc "quantity" d))
    (default VNone (assoc "image_url" d)).

(** The number of cart entries, all buckets together. *)
Definition cart_size (m : gmap string (list ShoppingCart.cart_item)) : nat :=
  sum_list_with (λ kv, length kv.2) (map_to_list m).

(** An answer of the upstream with two products, the second without a
    price. *)
Definition two_products : result Http.response :=
  Ok (Http.Response 200 (Ok (VDict [("items",
    VList [VDict [("product_id", VInt 2); ("name", VStr "ink"); ("price", VInt 4);
                  ("quantity", VInt 30)];
           VDict [("product_id", VInt 3); ("name", VStr "cap")]])]))).

End Snapshot.

(* ===================================================================== *)
(** ** The routes: [get_products], [chat], [login] *)
(* ===================================================================== *)
Module Gateway.
Import Py AuthGate ShoppingAssistant.

(** [str.lower] on ASCII letters; other characters are left as they are. *)
Definition lower_ascii (c : ascii) : ascii :=
  let n := N_of_ascii c in
  if ((65 <=? n) && (n <=? 90))%N then ascii_of_N (n + 32) else c.

Fixpoint lower (s : string) : string :=
  match s with
  | EmptyString => EmptyString
  | String c s' => String (lower_ascii c) (lower s')
  end.

(** The bodies the routes answer (the time stamps left out), and their
    HTTP statuses. *)
Inductive reply :=
  | NotInitialized
  | MissingMessage
  | ChatReply (response : string) (response_time : Z)
  | ProductsReply (products : list ProductCatalog.product) (count : Z)
                  (last_updated : option string)
  | ServerError (e : exn).

Definition http_status (r : reply) : Z :=
  match r with
  | NotInitialized | ServerError _ => 500
  | MissingMessage => 400
  | ChatReply _ _ | ProductsReply _ _ _ => 200
  end.

(** The module-level [assistant] ([None] until [init_assistant] succeeds)
    and the wall clock. *)
Record server := Server { installed : option t; wall : Z }.

(** What [requests.post] gives in [login]: a time-out, another request
    error ([Raise]) or a response. *)
Inductive posted :=
  | TimedOut
  | Posted (r : result Http.response).

Inductive login_reply :=
  | LoginOk (userId userName role : value)
  | MissingFields
  | InvalidLogin (status_code : Z)
  | LoginTimeout
  | LoginError.

Definition login_status (r : login_reply) : Z :=
  match r with
  | LoginOk _ _ _ => 200
  | MissingFields => 400
  | InvalidLogin _ => 401
  | LoginTimeout => 504
  | LoginError => 500
  end.

(** [get_products], the body under the decorator: [refresh_arg] is
    [request.args.get('refresh')], [fetched] and [now] what a refresh
    would meet. *)
Definition get_products (refresh_arg : option string)
    (fetched : result Http.response) (now : string) (s : server) : reply * server :=
  match installed s with
  | None => (NotInitialized, s)
  | Some a =>
      let should_refresh :=
        String.eqb (lower (default "false" refresh_arg)) "true" in
      let catalog' :=
        if should_refresh
        then snd (ProductCatalog.refresh fetched now (catalog a))
        else catalog a in
      (ProductsReply (ProductCatalog.get_all_products catalog')
         (Z.of_nat (length (ProductCatalog.get_all_products catalog')))
         (ProductCatalog.last_updated catalog'),
       Server (Some (Assistant (cfg a) catalog' (cart a))) (wall s))
  end.

(** A route: the gate, then the handler on the user id put on the
    request; a request the gate refuses does not reach the handler. *)
Definition route {A S} (handler : string → S → A * S)
    (rate_limiter : RateLimiter.requests) (now : Z) (h : headers) (s : S)
    : AuthGate.reply A * RateLimiter.requests * S :=
  match require_auth (λ user_id _ _, handler user_id) rate_limiter now h with
  | (Handled run, rl) => let '(a, s') := run s in (Handled a, rl, s')
  | (MissingCredentials, rl) => (MissingCredentials, rl, s)
  | (InvalidRole r, rl) => (InvalidRole r, rl, s)
  | (RateLimited r limit, rl) => (RateLimited r limit, rl, s)
  end.

Section WithRuntime.
Context `{Runtime}.

(** Whether the float with the given literal is zero. *)
Variable float_is_zero : string → bool.
Variable _build_system_prompt : t → string → result string.

(** Truth value of a decoded JSON value. *)
Definition truth (v : value) : bool :=
  match v with
  | VNone => false
  | VBool b => b
  | VInt n => negb (n =? 0)
  | VFloat lit => negb (float_is_zero lit)
  | VStr s => negb (String.eqb s "")
  | VList l => match l with [] => false | _ => true end
  | VDict d => match d with [] => false | _ => true end
  | VObj _ => true
  end.

(** [key in v] for a text [key]. *)
Definition contains (v : value) (key : string) : result bool :=
  match v with
  | VDict d => Ok (bool_decide (is_Some (assoc key d)))
  | VList l =>
      Ok (existsb (λ x, match x with VStr s => String.eqb s key | _ => false end) l)
  | VStr s => Ok (bool_decide (is_Some (String.index 0 key s)))
  | _ => Raise TypeError
  end.

(** [key not in v] *)
Definition not_in (v : value) (key : string) : result bool :=
  b ← contains v key; mret (negb b).

(** The statements of [chat] after the test of [assistant]. *)
Definition chat_body (e : env) (body : result value) (user_id : string)
    : M world reply :=
  data ← lift body;
  missing ← lift (if negb (truth data) then Ok true else not_in data "message");
  if (missing : bool) then mret MissingMessage
  else
    user_message ← lift (getitem data "message");
    history ← lift (get data "history" (VList []));
    r ← get_response _build_system_prompt e user_message history user_id;
    mret (ChatReply r.1 r.2).

(** [chat], the body under the decorator: [body] is what
    [request.get_json()] gives, [user_id] the id put on the request.  The
    elapsed time is a whole number of seconds here, on which
    [round(elapsed, 2)] changes nothing. *)
Definition chat (e : env) (body : result value) (user_id : string) (s : server)
    : reply * server :=
  match installed s with
  | None => (NotInitialized, s)
  | Some a =>
      let '(r, w) :=
        try_except (chat_body e body user_id) (λ ex, mret (ServerError ex))
          (World a (wall s)) in
      (match r with Ok x => x | Raise ex => ServerError ex end,
       Server (Some (assistant w)) (clock w))
  end.

(** [login]: [body] is what [request.get_json()] gives, [upstream] what
    [requests.post] gives if it is called. *)
Definition login (body : result value) (upstream : posted) : login_reply :=
  match
    (data ← body;
     missing ←
       (if negb (truth data) then Ok true
        else m ← not_in data "username";
             if (m : bool) then Ok true else not_in data "password");
     if (missing : bool) then Ok MissingFields
     else
       _ ← getitem data "username";
       _ ← getitem data "password";
       Ok (match upstream with
           | TimedOut => LoginTimeout
           | Posted (Raise _) => LoginError
           | Posted (Ok response) =>
               if Http.status response =? 200 then
                 match (login_data ← Http.json response;
                        userId ← get login_data "userId" VNone;
                        userName ← get login_data "userName" VNone;
                        role ← get login_data "role" VNone;
                        Ok (LoginOk userId userName role)) with
                 | Ok r => r
                 | Raise _ => LoginError
                 end
               else InvalidLogin (Http.status response)
           end))
  with
  | Ok r => r
  | Raise _ => LoginError
  end.

End WithRuntime.

(** Data for the examples: a test of zero for bodies that hold no float
    but ["0.0"], a server with the sample assistant, a chat body with a
    message, one without, and upstream answers to a login. *)
Definition only_plain_zero (lit : string) : bool := String.eqb lit "0.0".
Definition up : server := Server (Some sample) 100.
Definition hello_body : result value := Ok (VDict [("message", VStr "hello")]).
Definition empty_body : result value := Ok (VDict []).
Definition credentials : result value :=
  Ok (VDict [("username", VStr "john.doe"); ("password", VStr "secret")]).
Definition upstream_unavailable : posted :=
  Posted (Ok (Http.Response 503 (Raise ValueError))).
Definition upstream_accepts : posted :=
  Posted (Ok (Http.Response 200 (Ok (VDict
    [("userId", VInt 7); ("userName", VStr "Ann"); ("role", VStr "user")])))).

End Gateway.

(* ===================================================================== *)
(** * Properties *)
(* ===================================================================== *)

(** Unfolds the statement monad of [Py.M] down to pairs. *)
Ltac run_m :=
  unfold mbind, Py.M_bind, Py.result_bind, Py.lift, Py.modify, mret, Py.M_ret,
    Py.result_ret, Py.try_except;
  simpl.

(** ** The rate limiter *)
Module RateLimiterFacts.
Import RateLimiter.

Lemma limits_get_cases (role : string) :
  limits_get role = if String.eqb role "admin" then admin_limit else user_limit.
Proof.
  unfold limits_get, limits.
  destruct (String.eqb_spec role "admin") as [->|Hadmin]; [reflexivity|].
  destruct (String.eqb_spec role "user") as [->|Huser]; [reflexivity|].
  rewrite lookup_insert_ne by congruence.
  rewrite lookup_insert_ne by congruence.
  rewrite lookup_empty. reflexivity.
Qed.

Lemma limits_get_default (role : string) :
  limits_get role = default user_limit (limits !! role).
Proof. reflexivity. Qed.

Lemma window_limits_get (role : string) : window (limits_get role) = 60.
Proof. rewrite limits_get_cases. destruct (String.eqb role "admin"); reflexivity. Qed.

Lemma max_requests_pos (role : string) : 0 < max_requests (limits_get role).
Proof. rewrite limits_get_cases. destruct (String.eqb role "admin"); reflexivity. Qed.

(** [is_allowed] with the two dictionary writes merged. *)
Lemma is_allowed_eq (self : requests) now user_id role :
  is_allowed self now user_id role =
    let limit := limits_get role in
    let kept := clean now (window limit) (self !!! user_id) in
    if Z.of_nat (length kept) >=? max_requests limit
    then ((false, limit), <[user_id := kept]> self)
    else ((true, limit), <[user_id := kept ++ [now]]> self).
Proof.
  unfold is_allowed. cbv zeta.
  rewrite lookup_total_insert_eq, insert_insert_eq. reflexivity.
Qed.

Lemma clean_app now w l1 l2 :
  clean now w (l1 ++ l2) = clean now w l1 ++ clean now w l2.
Proof. apply List.filter_app. Qed.

(** Pruning at a later reading absorbs a pruning at an earlier one. *)
Lemma clean_clean now now' w l :
  now ≤ now' → clean now' w (clean now w l) = clean now' w l.
Proof.
  intros Hle. induction l as [|t l IH]; [reflexivity|].
  simpl. destruct (Z.ltb_spec (now - t) w); simpl; rewrite IH.
  - reflexivity.
  - destruct (Z.ltb_spec (now' - t) w); [lia | reflexivity].
Qed.

Lemma final_app self cs1 cs2 :
  final self (cs1 ++ cs2) = final (final self cs1) cs2.
Proof. apply fold_left_app. Qed.

Lemma run_app self cs1 cs2 :
  run self (cs1 ++ cs2) = run self cs1 ++ run (final self cs1) cs2.
Proof.
  revert self. induction cs1 as [|c cs1 IH]; intros self; [reflexivity|].
  simpl. rewrite IH. reflexivity.
Qed.

Lemma admitted_app l1 l2 : admitted (l1 ++ l2) = admitted l1 ++ admitted l2.
Proof. unfold admitted. rewrite List.filter_app, map_app. reflexivity. Qed.

Lemma chronological_from_app t cs c post :
  chronological_from t (cs ++ c :: post) = true →
  t ≤ at_time c ∧ Forall (λ a, at_time a ≤ at_time c) cs ∧
  chronological_from t cs = true.
Proof.
  revert t. induction cs as [|a cs IH]; intros t; simpl.
  - intros Hc. split; [lia|]. split; [constructor | reflexivity].
  - intros Hc. apply andb_prop in Hc as [Hta Hc].
    apply IH in Hc as (Hac & Hall & Hc).
    split; [lia|]. split; [constructor; [lia | assumption]|].
    rewrite Hta. assumption.
Qed.

Lemma chronological_app cs c post :
  chronological (cs ++ c :: post) = true →
  Forall (λ a, at_time a ≤ at_time c) cs ∧ chronological cs = true.
Proof.
  destruct cs as [|a cs]; simpl.
  - intros _. split; [constructor | reflexivity].
  - intros Hc. apply chronological_from_app in Hc as (Hac & Hall & Hc).
    split; [constructor; [lia | assumption] | assumption].
Qed.

(** The record of a user, pruned at any reading [now] not before the calls
    made so far, holds the times of the admitted calls of that user that
    are less than a window old at [now]. *)
Lemma record_is_admitted (cs : list call) (user_id : string) (now : Z) :
  Forall (λ a, at_time a ≤ now) cs →
  clean now 60 (final init cs !!! user_id) =
    map at_time (List.filter (recent user_id now 60) (admitted (run init cs))).
Proof.
  induction cs as [|c cs IH] using rev_ind; intros Hall.
  - reflexivity.
  - apply Forall_app in Hall as [Hcs Hc].
    apply Forall_cons in Hc as [Hc _].
    rewrite final_app, run_app, admitted_app, List.filter_app, map_app.
    rewrite <- (IH Hcs). clear IH.
    simpl. unfold check. rewrite is_allowed_eq. cbv zeta.
    rewrite window_limits_get.
    set (self := final init cs).
    unfold admitted, recent.
    destruct (decide (by_user c = user_id)) as [<-|Hne].
    + destruct (_ >=? _); simpl.
      * rewrite lookup_total_insert_eq, clean_clean by lia.
        rewrite app_nil_r. reflexivity.
      * rewrite lookup_total_insert_eq, clean_app, clean_clean by lia.
        rewrite bool_decide_eq_true_2 by reflexivity. simpl.
        destruct (now - at_time c <? 60); reflexivity.
    + destruct (_ >=? _); simpl.
      * rewrite lookup_total_insert_ne by assumption.
        rewrite app_nil_r. reflexivity.
      * rewrite lookup_total_insert_ne by assumption.
        rewrite bool_decide_eq_false_2 by assumption. simpl.
        rewrite app_nil_r. reflexivity.
Qed.

Lemma admitted_in self cs a : In a (admitted (run self cs)) → In a cs.
Proof.
  revert self. induction cs as [|c cs IH]; intros self; [done|].
  unfold admitted. simpl. destruct (fst (fst (check self c))); simpl.
  - intros [->|Hin]; [by left | right; by eapply IH].
  - intros Hin. right. by eapply IH.
Qed.

Lemma filter_length_le {A} (p q : A → bool) (l : list A) :
  (∀ x, In x l → p x = true → q x = true) →
  (length (List.filter p l) ≤ length (List.filter q l))%nat.
Proof.
  induction l as [|x l IH]; intros Hpq; [done|].
  simpl. specialize (IH (λ y Hy, Hpq y (or_intror Hy))).
  destruct (p x) eqn:Hp.
  - rewrite (Hpq x (or_introl eq_refl) Hp). simpl. lia.
  - destruct (q x); simpl; lia.
Qed.

(** The verdict at a call that comes after [pre]: fewer admitted calls of
    the user lie in the trailing window than the policy allows. *)
Lemma verdict_counts (pre : list call) (c : call) :
  Forall (λ a, at_time a ≤ at_time c) pre →
  fst (fst (check (final init pre) c)) =
    (Z.of_nat (length (List.filter
       (recent (by_user c) (at_time c) (window (limits_get (as_role c))))
       (admitted (run init pre)))) <? max_requests (limits_get (as_role c))).
Proof.
  intros Hpre. unfold check. rewrite is_allowed_eq. cbv zeta.
  rewrite window_limits_get.
  rewrite (record_is_admitted pre (by_user c) (at_time c) Hpre).
  rewrite length_map.
  rewrite Z.geb_leb.
  destruct (Z.leb_spec (max_requests (limits_get (as_role c)))
    (Z.of_nat (length (List.filter (recent (by_user c) (at_time c) 60)
       (admitted (run init pre)))))) as [Hge|Hlt]; simpl; symmetry.
  - apply Z.ltb_ge. lia.
  - apply Z.ltb_lt. lia.
Qed.

(** C1. Along any sequence of calls whose clock readings never go back,
    starting from a fresh limiter: (1) whenever [is_allowed] admits a call,
    fewer than [max_requests] (of the policy of the call's role) previously
    admitted calls of the same user are less than [window] seconds old at
    that moment; (2) in any period of [window] seconds ending at any time
    [T], at most [max_requests] calls of a user under a role are admitted. *)
Theorem admits_at_most_max_requests (cs : list call) :
  chronological cs = true →
  (∀ pre c post, cs = pre ++ c :: post →
     fst (fst (check (final init pre) c)) = true →
     Z.of_nat (length (List.filter
       (recent (by_user c) (at_time c) (window (limits_get (as_role c))))
       (admitted (run init pre)))) < max_requests (limits_get (as_role c)))
  ∧
  (∀ T user_id role,
     Z.of_nat (length (List.filter
       (in_period user_id role T (window (limits_get role)))
       (admitted (run init cs)))) ≤ max_requests (limits_get role)).
Proof.
  intros Hchron. split.
  - intros pre c post -> Hok.
    apply chronological_app in Hchron as [Hpre _].
    rewrite (verdict_counts pre c Hpre) in Hok.
    by apply Z.ltb_lt.
  - intros T user_id role.
    induction cs as [|c cs IH] using rev_ind.
    + pose proof (max_requests_pos role). simpl. lia.
    + apply chronological_app in Hchron as [Hpre Hcs].
      specialize (IH Hcs).
      rewrite run_app, admitted_app, List.filter_app, length_app.
      simpl. rewrite (verdict_counts cs c Hpre).
      destruct (Z.ltb_spec
        (Z.of_nat (length (List.filter
           (recent (by_user c) (at_time c) (window (limits_get (as_role c))))
           (admitted (run init cs)))))
        (max_requests (limits_get (as_role c)))) as [Hlt|Hge];
        unfold admitted at 2; simpl; [|lia].
      destruct (in_period user_id role T (window (limits_get role)) c) eqn:Hin;
        simpl; [|lia].
      unfold in_period in Hin.
      apply andb_prop in Hin as [Hin HcT]. apply andb_prop in Hin as [Hin HTc].
      apply andb_prop in Hin as [Hu Hr].
      apply bool_decide_eq_true_1 in Hu, Hr. subst user_id role.
      apply Z.ltb_lt in HTc. apply Z.leb_le in HcT.
      pose proof (filter_length_le
        (in_period (by_user c) (as_role c) T (window (limits_get (as_role c))))
        (recent (by_user c) (at_time c) (window (limits_get (as_role c))))
        (admitted (run init cs))) as Hle.
      cut (length (List.filter
             (in_period (by_user c) (as_role c) T (window (limits_get (as_role c))))
             (admitted (run init cs)))
           ≤ length (List.filter
             (recent (by_user c) (at_time c) (window (limits_get (as_role c))))
             (admitted (run init cs))))%nat; [lia|].
      apply Hle. intros a Ha Hp.
      apply admitted_in in Ha.
      rewrite Forall_forall in Hpre. apply list_elem_of_In, Hpre in Ha.
      unfold in_period in Hp. unfold recent.
      apply andb_prop in Hp as [Hp HaT]. apply andb_prop in Hp as [Hp HTa].
      apply andb_prop in Hp as [Hu _].
      rewrite Hu. simpl. apply Z.ltb_lt in HTa. apply Z.ltb_lt. lia.
Qed.

Lemma admits_at_most_max_requests_witness :
  chronological sample_calls = true ∧
  Z.of_nat (length (List.filter (in_period "u1" "user" 30 60)
    (admitted (run init sample_calls)))) ≤ 10.
Proof.
  split; [reflexivity|].
  exact (proj2 (admits_at_most_max_requests sample_calls eq_refl) 30 "u1" "user").
Defined.

(** C4, as the code has it. Every call of [is_allowed] returns; it takes
    the policy of the role, the ["user"] policy for a role that has none;
    it keeps of the user's record exactly the times newer than
    [now - window] (a time exactly [window] old is pruned); if the count of
    the kept times is at least [max_requests] it stores the kept times and
    returns not-allowed with the policy, else it stores the kept times with
    [now] appended and returns allowed with the policy. *)
Theorem is_allowed_steps (self : requests) (now : Z) (user_id role : string) :
  let policy := default user_limit (limits !! role) in
  let kept := List.filter (λ t, now - window policy <? t) (self !!! user_id) in
  is_allowed self now user_id role =
    if max_requests policy <=? Z.of_nat (length kept)
    then ((false, policy), <[user_id := kept]> self)
    else ((true, policy), <[user_id := kept ++ [now]]> self).
Proof.
  cbv zeta. rewrite is_allowed_eq, limits_get_default. cbv zeta.
  rewrite Z.geb_leb.
  replace (clean now (window (default user_limit (limits !! role))) (self !!! user_id))
    with (List.filter (λ t, now - window (default user_limit (limits !! role)) <? t)
            (self !!! user_id)); [reflexivity|].
  apply List.filter_ext. intros t.
  destruct (Z.ltb_spec (now - window (default user_limit (limits !! role))) t);
    symmetry; [apply Z.ltb_lt | apply Z.ltb_ge]; lia.
Qed.

(** C4 fails as worded: a time exactly [window] seconds old is not older
    than [now - window], yet the code prunes it; the check worded by the
    specification refuses the call that the code admits. *)
Lemma is_allowed_prunes_age_window :
  fst (fst (is_allowed ten_at_zero 60 "u1" "user")) = true ∧
  fst (fst (spec_check ten_at_zero 60 "u1" "user")) = false ∧
  is_allowed ten_at_zero 60 "u1" "user" ≠ spec_check ten_at_zero 60 "u1" "user".
Proof.
  split; [reflexivity|]. split; [reflexivity|].
  intros Heq. apply (f_equal (λ r, fst (fst r))) in Heq.
  vm_compute in Heq. discriminate.
Qed.

(** C9. The record is found under the user id alone. A call admitted for a
    user under one role is in the list that the next check of that user
    counts, whatever the role of that check, the role choosing only the
    policy the count is compared with; two roles with one policy give the
    same result; the records of the other users are not touched. *)
Theorem record_shared_across_roles (self : requests) (t1 t2 : Z)
    (user_id role1 role2 : string) :
  fst (fst (is_allowed self t1 user_id role1)) = true →
  t2 - t1 < window (limits_get role2) →
  let self1 := snd (is_allowed self t1 user_id role1) in
  let counted := clean t2 (window (limits_get role2)) (self1 !!! user_id) in
  In t1 counted
  ∧ is_allowed self1 t2 user_id role2 =
      (if Z.of_nat (length counted) >=? max_requests (limits_get role2)
       then ((false, limits_get role2), <[user_id := counted]> self1)
       else ((true, limits_get role2), <[user_id := counted ++ [t2]]> self1))
  ∧ (limits_get role1 = limits_get role2 →
       is_allowed self t1 user_id role1 = is_allowed self t1 user_id role2)
  ∧ (∀ other, other ≠ user_id → self1 !!! other = self !!! other).
Proof.
  intros Hok Hwin. cbv zeta.
  split; [|split; [|split]].
  - rewrite is_allowed_eq in Hok |- *. cbv zeta in Hok |- *.
    destruct (_ >=? _); [discriminate|]. simpl.
    rewrite lookup_total_insert_eq, clean_app.
    apply in_or_app. right. simpl.
    destruct (Z.ltb_spec (t2 - t1) (window (limits_get role2))); [by left | lia].
  - apply is_allowed_eq.
  - intros Hpol. rewrite !is_allowed_eq. cbv zeta. rewrite Hpol. reflexivity.
  - intros other Hne. rewrite is_allowed_eq. cbv zeta.
    destruct (_ >=? _); simpl; by rewrite lookup_total_insert_ne.
Qed.

Lemma record_shared_across_roles_witness :
  fst (fst (is_allowed init 0 "u1" "user")) = true ∧
  0 - 0 < window (limits_get "admin") ∧
  In 0 (clean 0 (window (limits_get "admin"))
          (snd (is_allowed init 0 "u1" "user") !!! "u1")).
Proof.
  split; [reflexivity|]. split; [reflexivity|].
  exact (proj1 (record_shared_across_roles init 0 0 "u1" "user" "admin"
                  eq_refl eq_refl)).
Defined.

(** Ten calls as ["user"] fill the record of [u1]; an eleventh as ["user"]
    is refused, as ["admin"] it is admitted, and it is then counted against
    the next ["user"] call. *)
Example roles_share_one_record :
  let self := final init (map (λ t, Call t "u1" "user") (seqZ 0 10)) in
  fst (fst (is_allowed self 10 "u1" "user")) = false ∧
  fst (fst (is_allowed self 10 "u1" "admin")) = true ∧
  snd (is_allowed self 10 "u1" "admin") !!! "u1" = seqZ 0 11.
Proof. vm_compute. done. Qed.

End RateLimiterFacts.

(** ** The authentication gate *)
Module AuthGateFacts.
Import RateLimiter AuthGate.

Section Gate.
Context {R : Type} (f : string → string → string → R).

Lemma require_auth_lacks_header rl now h :
  lacks_header h = true → require_auth f rl now h = (MissingCredentials, rl).
Proof.
  unfold lacks_header, require_auth. simpl.
  destruct (X_User_ID h), (X_User_Role h), (X_User_Name h); try reflexivity.
  rewrite andb_true_r, andb_assoc. intros ->. reflexivity.
Qed.

Lemma require_auth_bad_role rl now h :
  lacks_header h = false → bad_role h = true →
  ∃ r, X_User_Role h = Some r ∧ require_auth f rl now h = (InvalidRole r, rl).
Proof.
  unfold lacks_header, bad_role, require_auth. simpl.
  destruct (X_User_ID h) as [u|], (X_User_Role h) as [r|], (X_User_Name h) as [n|];
    simpl; rewrite ?andb_false_r; try discriminate.
  rewrite andb_true_r, andb_assoc. intros -> Hrole. simpl.
  exists r. split; [reflexivity|].
  rewrite bool_decide_eq_false_2; [reflexivity|].
  rewrite !elem_of_cons, elem_of_nil.
  apply negb_true_iff, orb_false_elim in Hrole as [Hu Ha].
  apply String.eqb_neq in Hu, Ha. tauto.
Qed.

Lemma require_auth_checks_limit rl now h :
  lacks_header h = false → bad_role h = false →
  ∃ u r n, h = Headers (Some u) (Some r) (Some n) ∧
    require_auth f rl now h =
      (if fst (fst (is_allowed rl now u r)) then Handled (f u r n)
       else RateLimited r (snd (fst (is_allowed rl now u r))),
       snd (is_allowed rl now u r)).
Proof.
  destruct h as [[u|] [r|] [n|]];
    unfold lacks_header, bad_role, require_auth; simpl;
    rewrite ?andb_false_r; try discriminate.
  rewrite andb_true_r, andb_assoc. intros -> Hrole. simpl.
  exists u, r, n. split; [reflexivity|].
  rewrite bool_decide_eq_true_2.
  - simpl. destruct (is_allowed rl now u r) as [[[] cfg] rl']; reflexivity.
  - rewrite !elem_of_cons.
    apply negb_false_iff, orb_prop in Hrole as [Hu|Ha];
      apply String.eqb_eq in Hu || apply String.eqb_eq in Ha; auto.
Qed.

Lemma rejected_early_keeps_limiter rl now h :
  rejected_early (fst (require_auth f rl now h)) = true →
  snd (require_auth f rl now h) = rl.
Proof.
  destruct (lacks_header h) eqn:Hl.
  - rewrite require_auth_lacks_header by assumption. reflexivity.
  - destruct (bad_role h) eqn:Hb.
    + destruct (require_auth_bad_role rl now h Hl Hb) as (r & _ & ->). reflexivity.
    + destruct (require_auth_checks_limit rl now h Hl Hb) as (u & r & n & _ & ->).
      simpl. destruct (fst (fst (is_allowed rl now u r))); discriminate.
Qed.

Lemma serve_rejected rl reqs :
  Forall (λ th, lacks_header th.2 || bad_role th.2 = true) reqs →
  snd (serve f rl reqs) = rl ∧
  Forall (λ r, rejected_early r = true) (fst (serve f rl reqs)).
Proof.
  induction reqs as [|[now h] reqs IH]; intros Hall.
  - split; [reflexivity | constructor].
  - apply Forall_cons in Hall as [Hh Hall]. simpl in Hh.
    destruct (IH Hall) as [IH1 IH2]. simpl.
    assert (require_auth f rl now h = (fst (require_auth f rl now h), rl)
            ∧ rejected_early (fst (require_auth f rl now h)) = true) as [Heq Hrej].
    { destruct (lacks_header h) eqn:Hl.
      - rewrite require_auth_lacks_header by assumption. done.
      - simpl in Hh.
        destruct (require_auth_bad_role rl now h Hl Hh) as (r & _ & ->). done. }
    rewrite Heq. destruct (serve f rl reqs) as [rs rl'] eqn:Hs.
    simpl in *. subst rl'. split; [reflexivity|]. by constructor.
Qed.

(** C2. The gate validates in a fixed order: a request that lacks a header
    gets [MissingCredentials] (401) whatever its role; one with the three
    headers and a role other than ["user"] and ["admin"] gets [InvalidRole]
    (400); only then is [is_allowed] called.  A request rejected with 401
    or 400 leaves the limiter as it was, so after any number of such
    requests a later request gets the reply it would have got without
    them. *)
Theorem rejections_consume_no_slot (rl : requests) (now : Z) (h : headers) :
  (lacks_header h = true → require_auth f rl now h = (MissingCredentials, rl))
  ∧ (lacks_header h = false → bad_role h = true →
       ∃ r, X_User_Role h = Some r ∧ require_auth f rl now h = (InvalidRole r, rl))
  ∧ (lacks_header h = false → bad_role h = false →
       ∃ u r n, h = Headers (Some u) (Some r) (Some n) ∧
         require_auth f rl now h =
           (if fst (fst (is_allowed rl now u r)) then Handled (f u r n)
            else RateLimited r (snd (fst (is_allowed rl now u r))),
            snd (is_allowed rl now u r)))
  ∧ (rejected_early (fst (require_auth f rl now h)) = true →
       snd (require_auth f rl now h) = rl)
  ∧ (∀ reqs : list (Z * headers),
       Forall (λ th, lacks_header th.2 || bad_role th.2 = true) reqs →
       Forall (λ r, rejected_early r = true) (fst (serve f rl reqs)) ∧
       snd (serve f rl reqs) = rl ∧
       require_auth f (snd (serve f rl reqs)) now h = require_auth f rl now h).
Proof.
  split; [apply require_auth_lacks_header|].
  split; [apply require_auth_bad_role|].
  split; [apply require_auth_checks_limit|].
  split; [apply rejected_early_keeps_limiter|].
  intros reqs Hall. destruct (serve_rejected rl reqs Hall) as [Hrl Hrej].
  split; [assumption|]. split; [assumption|]. by rewrite Hrl.
Qed.

(** C10. A header that is present with the empty string as its value is
    treated as an absent one: the reply and the limiter are those of the
    request with the empty headers removed, and when one of the three
    headers is empty the reply is [MissingCredentials] (401) and the
    limiter is left as it was. *)
Theorem empty_header_counts_as_absent (rl : requests) (now : Z) (h : headers) :
  require_auth f rl now h = require_auth f rl now (drop_empty h)
  ∧ (X_User_ID h = Some "" ∨ X_User_Role h = Some "" ∨ X_User_Name h = Some "" →
       require_auth f rl now h = (MissingCredentials, rl)
       ∧ status_code (fst (require_auth f rl now h)) = Some 401).
Proof.
  split.
  - destruct h as [[[|c1 u]|] [[|c2 r]|] [[|c3 n]|]]; reflexivity.
  - intros Hempty.
    assert (lacks_header h = true) as Hl.
    { unfold lacks_header.
      destruct Hempty as [-> | [-> | ->]]; simpl; rewrite ?andb_false_r; reflexivity. }
    rewrite (require_auth_lacks_header rl now h Hl). done.
Qed.

End Gate.

Lemma rejections_consume_no_slot_witness :
  let reqs := repeat (0, no_headers) 11 ++ [(0, superadmin)] in
  Forall (λ th, lacks_header th.2 || bad_role th.2 = true) reqs ∧
  snd (serve (λ _ _ _, tt) init reqs) = init ∧
  require_auth (λ _ _ _, tt) (snd (serve (λ _ _ _, tt) init reqs)) 0 valid_user =
    require_auth (λ _ _ _, tt) init 0 valid_user.
Proof.
  cbv zeta.
  assert (Forall (λ th : Z * headers, lacks_header th.2 || bad_role th.2 = true)
            (repeat (0, no_headers) 11 ++ [(0, superadmin)])) as Hall.
  { simpl. repeat constructor. }
  split; [exact Hall|].
  exact (proj2 (proj2 (proj2 (proj2 (proj2
    (rejections_consume_no_slot (λ _ _ _, tt) init 0 valid_user)))) _ Hall)).
Defined.

Lemma empty_header_counts_as_absent_witness :
  X_User_Name empty_name = Some "" ∧
  require_auth (λ _ _ _, tt) init 0 empty_name = (MissingCredentials, init).
Proof.
  split; [reflexivity|].
  exact (proj1 (proj2 (empty_header_counts_as_absent (λ _ _ _, tt) init 0 empty_name)
                  (or_intror (or_intror eq_refl)))).
Defined.

(** Eleven requests without headers and one with an unknown role, then a
    well-formed request: it is handled, and the record holds it alone. *)
Example rejected_then_valid :
  let reqs := repeat (0, no_headers) 11 ++ [(0, superadmin); (1, valid_user)] in
  last (fst (serve (λ u r n, n) init reqs)) = Some (Handled "Ann") ∧
  snd (serve (λ u r n, n) init reqs) !!! "7" = [1].
Proof. vm_compute. done. Qed.

End AuthGateFacts.
(** ** The mirrors *)
Module MirrorFacts.
Import Py Http.

Section Cart.
Import ShoppingCart.
Context `{Runtime}.

Lemma add_item_dict d m lu :
  add_item (VDict d) (Cart m lu) =
    (Ok tt, Cart (<[bucket d := default [] (m !! bucket d) ++ [entry d]]> m) lu).
Proof.
  unfold add_item, bucket, entry, set_cart_items. run_m.
  set (u := str _).
  destruct (m !! u) as [l|] eqn:Hm; simpl.
  - rewrite (lookup_total_correct _ _ _ Hm). reflexivity.
  - rewrite lookup_total_insert_eq, insert_insert_eq. reflexivity.
Qed.

Lemma add_item_ok item s s' :
  add_item item s = (Ok tt, s') → ∃ d, item = VDict d.
Proof. destruct item; try (unfold add_item; run_m; discriminate). eauto. Qed.

Lemma for_each_dicts ds m lu :
  ∃ m', for_each (map VDict ds) add_item (Cart m lu) = (Ok tt, Cart m' lu) ∧
    ∀ u, m' !! u =
      match List.filter (λ d, String.eqb (bucket d) u) ds with
      | [] => m !! u
      | ds_u => Some (default [] (m !! u) ++ map entry ds_u)
      end.
Proof.
  revert m. induction ds as [|d ds IH]; intros m.
  - exists m. split; [reflexivity | done].
  - destruct (IH (<[bucket d := default [] (m !! bucket d) ++ [entry d]]> m))
      as (m' & Hrun & Hm').
    exists m'. split.
    + simpl. unfold mbind at 1, M_bind. rewrite add_item_dict. exact Hrun.
    + intros u. rewrite Hm'. simpl.
      destruct (String.eqb_spec (bucket d) u) as [->|Hne].
      * rewrite lookup_insert_eq. simpl.
        destruct (List.filter _ ds); simpl; [reflexivity|].
        by rewrite <- app_assoc.
      * by rewrite lookup_insert_ne.
Qed.

Lemma for_each_ok l s s' :
  for_each l add_item s = (Ok tt, s') → ∃ ds, l = map VDict ds.
Proof.
  revert s. induction l as [|item l IH]; intros s Hrun.
  - by exists [].
  - simpl in Hrun. unfold mbind at 1, M_bind in Hrun.
    destruct (add_item item s) as [[[]|e] s1] eqn:Hitem; [|discriminate].
    apply add_item_ok in Hitem as [d ->].
    apply IH in Hrun as [ds ->]. by exists (d :: ds).
Qed.

(** A refresh that returns [True] went through every step. *)
Lemma load_cart_true fetched now self self' :
  _load_cart fetched now self = (Ok true, self') →
  ∃ response data items l s,
    fetched = Ok response ∧ json response = Ok data ∧
    get data "items" (VList []) = Ok items ∧ iter items = Ok l ∧
    for_each l add_item (Cart ∅ (last_updated self)) = (Ok tt, s) ∧
    self' = Cart (cart_items s) (Some now).
Proof.
  unfold _load_cart, set_cart_items. run_m.
  destruct fetched as [response|e]; simpl; [|discriminate].
  destruct (raise_for_status response); simpl; [|discriminate].
  destruct (json response) as [data|e] eqn:Hdata; simpl; [|discriminate].
  destruct (get data "items" (VList [])) as [items|e] eqn:Hitems; simpl;
    [|discriminate].
  destruct (iter items) as [l|e] eqn:Hl; simpl; [|discriminate].
  destruct (for_each l add_item _) as [[[]|e] s] eqn:Hloop; simpl; [|discriminate].
  intros [= <-]. by exists response, data, items, l, s.
Qed.

(** C6. When a cart refresh succeeds, the fetched items (all of them
    [dict]s then) are split by [str] of their [user_id]: the bucket read
    for a user holds, in the order fetched, the entries of exactly the
    items whose key is that user, the buckets that exist are those of the
    keys met, and an item without [user_id] is in bucket ["0"]. *)
Theorem cart_partitioned_by_user_id fetched now self self' :
  refresh fetched now self = (Ok true, self') →
  ∃ response data items ds,
    fetched = Ok response ∧ json response = Ok data ∧
    get data "items" (VList []) = Ok items ∧ iter items = Ok (map VDict ds) ∧
    (∀ user_id, get_user_cart self' user_id =
       map entry (List.filter (λ d, String.eqb (bucket d) user_id) ds)) ∧
    (∀ user_id, is_Some (cart_items self' !! user_id) ↔
       ∃ d, d ∈ ds ∧ bucket d = user_id) ∧
    (∀ d, d ∈ ds → assoc "user_id" d = None →
       bucket d = "0" ∧ entry d ∈ get_user_cart self' "0").
Proof.
  intros Hrun. apply load_cart_true in Hrun
    as (response & data & items & l & s & -> & Hdata & Hitems & Hl & Hloop & ->).
  destruct (for_each_ok _ _ _ Hloop) as [ds ->].
  destruct (for_each_dicts ds ∅ (last_updated self)) as (m' & Hrun' & Hm').
  rewrite Hrun' in Hloop. injection Hloop as <-. simpl.
  assert (∀ user_id, get_user_cart (Cart m' (Some now)) user_id =
     map entry (List.filter (λ d, String.eqb (bucket d) user_id) ds)) as Hget.
  { intros u. unfold get_user_cart. simpl. rewrite Hm', lookup_empty.
    by destruct (List.filter _ ds). }
  exists response, data, items, ds.
  do 4 (split; [done|]). split; [exact Hget|]. split; [intros user_id; split|].
  - intros [l Hu]. rewrite Hm', lookup_empty in Hu.
    destruct (List.filter _ ds) as [|d ds_u] eqn:Hf; [discriminate|].
    assert (In d (List.filter (λ d, String.eqb (bucket d) user_id) ds)) as Hd
      by (rewrite Hf; by left).
    apply List.filter_In in Hd as [Hd Hb].
    exists d. split; [by apply list_elem_of_In | by apply String.eqb_eq].
  - intros (d & Hd & Hb). rewrite Hm', lookup_empty.
    destruct (List.filter _ ds) as [|d' ds_u] eqn:Hf; [|done].
    assert (In d (List.filter (λ d, String.eqb (bucket d) user_id) ds)) as Hin.
    { apply List.filter_In. split; [by apply list_elem_of_In | by apply String.eqb_eq]. }
    rewrite Hf in Hin. destruct Hin.
  - intros d Hd Hnone.
    assert (bucket d = "0") as Hb by (unfold bucket; by rewrite Hnone).
    split; [exact Hb|].
    rewrite Hget. apply list_elem_of_In, in_map, List.filter_In.
    split; [by apply list_elem_of_In | by apply String.eqb_eq].
Qed.

End Cart.

Lemma cart_partitioned_by_user_id_witness :
  let self' := snd (ShoppingCart.refresh (H:=bare_runtime) three_items "t"
                      ShoppingCart.filled) in
  ShoppingCart.refresh (H:=bare_runtime) three_items "t" ShoppingCart.filled
    = (Ok true, self') ∧
  ∃ ds, ∀ user_id, ShoppingCart.get_user_cart self' user_id =
    map ShoppingCart.entry
      (List.filter (λ d, String.eqb (ShoppingCart.bucket (H:=bare_runtime) d) user_id) ds).
Proof.
  cbv zeta.
  assert (ShoppingCart.refresh (H:=bare_runtime) three_items "t" ShoppingCart.filled
    = (Ok true, snd (ShoppingCart.refresh (H:=bare_runtime) three_items "t"
                       ShoppingCart.filled))) as Hrun by (vm_compute; reflexivity).
  split; [exact Hrun|].
  destruct (cart_partitioned_by_user_id _ _ _ _ Hrun)
    as (_ & _ & _ & ds & _ & _ & _ & _ & Hget & _).
  exists ds. exact Hget.
Defined.

(** The three items land in two buckets: the two of user 7 (one given as a
    number, one as a text) in ["7"], the one without [user_id] in ["0"]. *)
Example three_items_buckets :
  let self' := snd (ShoppingCart.refresh (H:=bare_runtime) three_items "t"
                      ShoppingCart.filled) in
  map ShoppingCart.name (ShoppingCart.get_user_cart self' "7") = [VStr "pen"; VStr "cap"] ∧
  map ShoppingCart.name (ShoppingCart.get_user_cart self' "0") = [VStr "ink"] ∧
  ShoppingCart.get_user_cart self' "8" = [].
Proof. vm_compute. done. Qed.

(** A [user_id] that is present and [null] is not missing: its item goes
    to the bucket of [str(None)]. *)
Example null_user_id_bucket :
  ShoppingCart.bucket (H:=bare_runtime) [("user_id", VNone); ("name", VStr "pen")]
    = "None".
Proof. reflexivity. Qed.

Section Failure.
Context `{Runtime}.

(** A refresh that fails before the body is decoded leaves the mirror as
    it was: [requests.get] raised, the status is an error status, or the
    body is not JSON. *)
Lemma failure_before_decoding_keeps_cache fetched now :
  (match fetched with
   | Ok response =>
       raise_for_status response ≠ Ok tt ∨ ∃ e, json response = Raise e
   | Raise _ => True
   end) →
  (∀ self, ProductCatalog.refresh fetched now self = (Ok false, self)) ∧
  (∀ self, ShoppingCart.refresh fetched now self = (Ok false, self)).
Proof.
  intros Hfail.
  unfold ProductCatalog.refresh, ProductCatalog._load_products,
    ShoppingCart.refresh, ShoppingCart._load_cart.
  destruct fetched as [response|e]; run_m; [|done].
  destruct (raise_for_status response) as [[]|e]; simpl; [|done].
  destruct Hfail as [Hst | [e He]]; [done|].
  rewrite He. done.
Qed.

(** C5 does not hold of the code. A refresh that fails after the body was
    decoded has already emptied the mirror: with the body [{"items": null}]
    [refresh] returns [False] and the cached products, or cart buckets, are
    gone; with an item list whose second element is not an object the
    catalog is left with the first item alone. *)
Theorem failed_refresh_loses_cache (now : string) :
  ProductCatalog.refresh items_null now ProductCatalog.stocked
    = (Ok false, ProductCatalog.Catalog [] (ProductCatalog.last_updated ProductCatalog.stocked))
  ∧ ProductCatalog.get_all_products
      (snd (ProductCatalog.refresh items_null now ProductCatalog.stocked))
    ≠ ProductCatalog.get_all_products ProductCatalog.stocked
  ∧ ShoppingCart.refresh items_null now ShoppingCart.filled
    = (Ok false, ShoppingCart.Cart ∅ (ShoppingCart.last_updated ShoppingCart.filled))
  ∧ ShoppingCart.get_user_cart
      (snd (ShoppingCart.refresh items_null now ShoppingCart.filled)) "7"
    ≠ ShoppingCart.get_user_cart ShoppingCart.filled "7"
  ∧ fst (ProductCatalog.refresh second_item_a_number now ProductCatalog.stocked) = Ok false
  ∧ map ProductCatalog.name (ProductCatalog.get_all_products
      (snd (ProductCatalog.refresh second_item_a_number now ProductCatalog.stocked)))
    = [VStr "ink"].
Proof. repeat split; try reflexivity; discriminate. Qed.

End Failure.

(** The upstream answers 500: both mirrors keep what they had. *)
Example server_error_keeps_cache :
  ProductCatalog.refresh server_error "t" ProductCatalog.stocked
    = (Ok false, ProductCatalog.stocked) ∧
  ShoppingCart.refresh (H:=bare_runtime) server_error "t" ShoppingCart.filled
    = (Ok false, ShoppingCart.filled).
Proof. split; reflexivity. Qed.

End MirrorFacts.

(** ** The assistant *)
Module ShoppingAssistantFacts.
Import Py ShoppingAssistant.

Section Messages.
Context `{Runtime}.
Variable _build_system_prompt : t → string → result string.

Lemma in_model_assistant (x : string) :
  bool_decide (x ∈ ["MODEL"; "ASSISTANT"]) =
    String.eqb x "MODEL" || String.eqb x "ASSISTANT".
Proof.
  destruct (String.eqb_spec x "MODEL") as [->|Hm]; [reflexivity|].
  destruct (String.eqb_spec x "ASSISTANT") as [->|Ha]; [reflexivity|].
  apply bool_decide_eq_false_2.
  rewrite !elem_of_cons, elem_of_nil. tauto.
Qed.

Lemma history_message_well_formed (msg : value) :
  well_formed msg = true → history_message msg = Ok (kept msg).
Proof.
  unfold well_formed, history_message, kept, role_of.
  destruct (getitem msg "role") as [[| | | |r| | |]|e]; try discriminate.
  simpl. rewrite in_model_assistant.
  destruct (String.eqb (upper r) "USER").
  - destruct (getitem msg "content"); [reflexivity | discriminate].
  - destruct (String.eqb (upper r) "MODEL" || String.eqb (upper r) "ASSISTANT").
    + destruct (getitem msg "content"); [reflexivity | discriminate].
    + destruct (getitem msg "content"); reflexivity.
Qed.

Lemma history_loop_well_formed (l : list value) (acc : list Message) :
  Forall (λ msg, well_formed msg = true) l →
  history_loop l acc = Ok (acc ++ omap kept l).
Proof.
  revert acc. induction l as [|msg l IH]; intros acc Hall.
  - simpl. by rewrite app_nil_r.
  - apply Forall_cons in Hall as [Hmsg Hall].
    simpl. rewrite (history_message_well_formed msg Hmsg). simpl.
    rewrite (IH _ Hall).
    destruct (kept msg); [by rewrite <- app_assoc | reflexivity].
Qed.

Lemma kept_not_system (msg : value) (m : Message) :
  kept msg = Some m → is_system m = false.
Proof.
  unfold kept, role_of.
  destruct (getitem msg "role") as [[| | | |r| | |]|e]; try discriminate.
  destruct (getitem msg "content") as [c|e]; try discriminate.
  destruct (String.eqb (upper r) "USER"); [by intros [= <-]|].
  destruct (_ || _); [by intros [= <-] | discriminate].
Qed.

Lemma omap_kept_no_system (l : list value) :
  List.filter is_system (omap kept l) = [].
Proof.
  induction l as [|msg l IH]; [reflexivity|].
  simpl. destruct (kept msg) as [m|] eqn:Hm; [|exact IH].
  simpl. by rewrite (kept_not_system msg m Hm).
Qed.

(** C3, as the code has it. Whenever the system prompt is built, for every
    history list whose entries are objects with a text as role (and a
    content when the role is mapped), the message list starts with the one
    system message, ends with a user message whose text is [user_message]
    as given, and holds in between, in the order of the input, the entries
    whose role, upper-cased by [str.upper], is "USER" (mapped to user) or
    "MODEL" or "ASSISTANT" (mapped to assistant); entries with any other
    role are dropped without an error. *)
Theorem chat_messages_shape (self : t) (user_message : value) (l : list value)
    (user_id prompt : string) :
  _build_system_prompt self user_id = Ok prompt →
  Forall (λ msg, well_formed msg = true) l →
  let msgs := Msg ROLE_SYSTEM [Text (VStr prompt)]
              :: omap kept l ++ [Msg ROLE_USER [Text user_message]] in
  chat_messages _build_system_prompt self user_message (VList l) user_id = Ok msgs
  ∧ head msgs = Some (Msg ROLE_SYSTEM [Text (VStr prompt)])
  ∧ List.filter is_system msgs = [Msg ROLE_SYSTEM [Text (VStr prompt)]]
  ∧ last msgs = Some (Msg ROLE_USER [Text user_message])
  ∧ (∀ req, _build_chat_request _build_system_prompt self user_message (VList l)
              user_id = Ok req → messages req = msgs).
Proof.
  intros Hprompt Hall msgs.
  assert (chat_messages _build_system_prompt self user_message (VList l) user_id
          = Ok msgs) as Hmsgs.
  { unfold chat_messages. rewrite Hprompt. simpl.
    rewrite (history_loop_well_formed l _ Hall). reflexivity. }
  split; [exact Hmsgs|]. split; [reflexivity|]. split; [|split].
  - unfold msgs. simpl. rewrite List.filter_app, omap_kept_no_system. reflexivity.
  - unfold msgs. rewrite app_comm_cons. apply last_snoc.
  - intros req. unfold _build_chat_request. rewrite Hmsgs. simpl.
    destruct (cfg_get self ["chat_parameters"]) as [params|e]; [|discriminate].
    simpl.
    repeat match goal with
    | |- context [getitem params ?k] =>
        destruct (getitem params k); simpl; [|discriminate]
    end.
    by intros [= <-].
Qed.

End Messages.

Lemma chat_messages_shape_witness :
  Forall (λ msg, well_formed (H:=bare_runtime) msg = true) [shouted; tool_entry] ∧
  chat_messages (H:=bare_runtime) (λ _ _, Ok "P") sample (VStr "hello")
    (VList [shouted; tool_entry]) "7"
    = Ok [Msg ROLE_SYSTEM [Text (VStr "P")]; Msg ROLE_USER [Text (VStr "hi")];
          Msg ROLE_USER [Text (VStr "hello")]].
Proof.
  assert (Forall (λ msg, well_formed (H:=bare_runtime) msg = true)
            [shouted; tool_entry]) as Hall
    by (repeat constructor).
  split; [exact Hall|].
  exact (proj1 (chat_messages_shape (H:=bare_runtime) (λ _ _, Ok "P") sample
                  (VStr "hello") [shouted; tool_entry] "7" "P" eq_refl Hall)).
Defined.

(** C3 fails as worded: an entry whose role is "USER" is neither "user",
    "model" nor "assistant", yet the code keeps it (as a user message)
    where the specification drops it; an entry whose role is not a text
    is not dropped but raises; and when the building of the system prompt
    raises, as the cart summary does on an item without a price, no
    message list is built at all. *)
Lemma uppercase_role_is_kept :
  chat_messages (H:=bare_runtime) (λ _ _, Ok "P") sample (VStr "hello")
    (VList [shouted]) "7"
    = Ok [Msg ROLE_SYSTEM [Text (VStr "P")]; Msg ROLE_USER [Text (VStr "hi")];
          Msg ROLE_USER [Text (VStr "hello")]]
  ∧ spec_messages "P" (VStr "hello") [shouted]
    = [Msg ROLE_SYSTEM [Text (VStr "P")]; Msg ROLE_USER [Text (VStr "hello")]]
  ∧ chat_messages (H:=bare_runtime) (λ _ _, Ok "P") sample (VStr "hello")
      (VList [role_null]) "7"
    = Raise AttributeError
  ∧ chat_messages (H:=bare_runtime) (λ _ _, Raise TypeError) sample (VStr "hello")
      (VList []) "7"
    = Raise TypeError.
Proof. split; [reflexivity|]. split; [reflexivity|]. split; reflexivity. Qed.

Section Extract.
Context `{Runtime}.

(** The third shape is guarded: a payload with neither attribute always
    gets a text, the text of the payload when the decoding or the path
    fails. *)
Lemma third_shape_never_raises (chat_response : chat_result) :
  hasattr (data chat_response) "chat_response" = false →
  hasattr (data chat_response) "choices" = false →
  ∃ s, _extract_response_text chat_response = Ok s ∧
    (json_loads (str (data chat_response)) ≫= text_of_payload = Ok s ∨
     (∃ e, json_loads (str (data chat_response)) ≫= text_of_payload = Raise e)
     ∧ s = str (data chat_response)).
Proof.
  unfold _extract_response_text. intros -> ->.
  destruct (json_loads (str (data chat_response)) ≫= text_of_payload) as [s|e].
  - exists s. split; [reflexivity | by left].
  - exists (str (data chat_response)). split; [reflexivity|]. right. eauto.
Qed.

(** C7 does not hold of the code. The first two shapes are entered on the
    presence of an attribute and are not guarded as the third one is.  A
    payload that has [chat_response] with an empty list of choices makes
    the extractor raise [IndexError], and a payload whose [chat_response]
    is [None] beside usable [choices] makes it raise [AttributeError], under
    every runtime: no later shape is tried and the text of the payload is
    not returned. *)
Theorem extract_raises_instead_of_falling_back :
  _extract_response_text (ChatResult no_choices) = Raise IndexError
  ∧ _extract_response_text (ChatResult none_beside_choices) = Raise AttributeError
  ∧ text_of_choices none_beside_choices = Ok "Hi".
Proof. split; [reflexivity|]. split; reflexivity. Qed.

End Extract.

(** On the payload with no choice the extractor worded by the
    specification returns the text of the payload. *)
Example spec_extract_falls_back :
  spec_extract (H:=bare_runtime) (ChatResult no_choices)
    = str (H:=bare_runtime) no_choices.
Proof. reflexivity. Qed.

(** A payload of the nested shape: the text comes back trimmed. *)
Example nested_payload_text :
  _extract_response_text (H:=bare_runtime) (ChatResult (nested_payload "  Hi there "))
    = Ok "Hi there".
Proof. reflexivity. Qed.

Section Elapsed.
Context `{Runtime}.
Variable _build_system_prompt : t → string → result string.

(** C8, as the code has it. The elapsed time [get_response] returns is the
    time taken by the building of the chat request (the prompt assembly),
    the debug print of its messages, the building of the chat details and
    the inference call; the refresh of the mirrors before and the
    extraction of the text after are outside of it. *)
Theorem elapsed_covers_build_and_chat (e : env) (user_message history : value)
    (user_id : string) (w w' : world) (text : string) (elapsed : Z) :
  get_response _build_system_prompt e user_message history user_id w
    = (Ok (text, elapsed), w') →
  elapsed = cost e BuildRequest + cost e DebugPrint + cost e BuildDetail + cost e Chat
  ∧ clock w' = clock w + cost e Refresh + elapsed + cost e Extract.
Proof.
  unfold get_response, during, time_time. run_m.
  destruct (refresh_data e (assistant w)) as [[ok|ex] a1]; simpl; [|discriminate].
  destruct (_build_chat_request _ a1 user_message history user_id) as [req|ex];
    simpl; [|discriminate].
  destruct (_build_chat_detail a1 req) as [detail|ex]; simpl; [|discriminate].
  destruct (client_chat e detail) as [response|ex]; simpl; [|discriminate].
  destruct (_extract_response_text response) as [s|ex]; simpl; [|discriminate].
  intros [= <- <- <-]. simpl. lia.
Qed.

End Elapsed.

Lemma elapsed_covers_build_and_chat_witness :
  get_response (H:=bare_runtime) (λ _ _, Ok "P") sample_env (VStr "hello") (VList [])
    "7" (World sample 100)
    = (Ok ("Hi", 5), World sample 113) ∧
  5 = cost sample_env BuildRequest + cost sample_env DebugPrint
      + cost sample_env BuildDetail + cost sample_env Chat.
Proof.
  assert (get_response (H:=bare_runtime) (λ _ _, Ok "P") sample_env (VStr "hello")
            (VList []) "7" (World sample 100)
          = (Ok ("Hi", 5), World sample 113)) as Hrun by (vm_compute; reflexivity).
  split; [exact Hrun|].
  exact (proj1 (elapsed_covers_build_and_chat (H:=bare_runtime) _ _ _ _ _ _ _ _ _ Hrun)).
Defined.

(** C8 fails as worded: with 2 seconds spent on building the request and 3
    on the inference call, the elapsed time returned is 5, not the 3
    seconds around the inference call. *)
Lemma elapsed_includes_prompt_assembly :
  fst (get_response (H:=bare_runtime) (λ _ _, Ok "P") sample_env (VStr "hello")
         (VList []) "7" (World sample 100)) = Ok ("Hi", 5)
  ∧ cost sample_env Chat = 3
  ∧ 5 ≠ cost sample_env Chat.
Proof. split; [vm_compute; reflexivity|]. split; [reflexivity | discriminate]. Qed.

End ShoppingAssistantFacts.

(** ** The rate limiter under traffic *)
Module TrafficFacts.
Import RateLimiter Traffic RateLimiterFacts.

Lemma max_requests_le_50 (role : string) : max_requests (limits_get role) ≤ 50.
Proof. rewrite limits_get_cases. destruct (String.eqb role "admin"); simpl; lia. Qed.

Lemma length_clean now w l : (length (clean now w l) ≤ length l)%nat.
Proof. apply List.filter_length_le. Qed.

(** One call keeps the bound on every record. *)
Lemma is_allowed_bounded (self : requests) now user_id role :
  (∀ u, Z.of_nat (length (self !!! u)) ≤ 50) →
  ∀ u, Z.of_nat (length (snd (is_allowed self now user_id role) !!! u)) ≤ 50.
Proof.
  intros Hself u. rewrite is_allowed_eq. cbv zeta.
  pose proof (max_requests_le_50 role) as Hmax.
  pose proof (length_clean now (window (limits_get role)) (self !!! user_id)) as Hlen.
  specialize (Hself user_id) as Hu.
  destruct (Z.geb_spec (Z.of_nat (length (clean now (window (limits_get role))
    (self !!! user_id)))) (max_requests (limits_get role))) as [Hge|Hlt]; simpl.
  - destruct (decide (u = user_id)) as [->|Hne].
    + rewrite lookup_total_insert_eq. lia.
    + rewrite lookup_total_insert_ne by congruence. apply Hself.
  - destruct (decide (u = user_id)) as [->|Hne].
    + rewrite lookup_total_insert_eq, length_app. simpl. lia.
    + rewrite lookup_total_insert_ne by congruence. apply Hself.
Qed.

(** X1. Whatever calls a fresh limiter has served, in whatever order of
    clock readings, no record holds more than 50 times, the largest
    [max_requests] of the policies. *)
Theorem record_never_exceeds_50 (cs : list call) (user_id : string) :
  Z.of_nat (length (final init cs !!! user_id)) ≤ 50.
Proof.
  revert user_id. induction cs as [|c cs IH] using rev_ind; intros u.
  - unfold final, init. simpl. rewrite lookup_total_empty. simpl. lia.
  - rewrite final_app. simpl. unfold check. by apply is_allowed_bounded.
Qed.

Lemma clean_all_expired now w l : all_expired now w l = true → clean now w l = [].
Proof.
  induction l as [|t l IH]; [done|].
  simpl. intros [Ht Hl]%andb_prop. apply Z.leb_le in Ht.
  destruct (Z.ltb_spec (now - t) w); [lia | by apply IH].
Qed.

(** X2. Once every recorded time of a user is a full window old, the next
    call of that user is admitted under either policy, and the record is
    left holding that call alone. *)
Theorem admitted_after_window (self : requests) (now : Z) (user_id role : string) :
  all_expired now 60 (self !!! user_id) = true →
  is_allowed self now user_id role =
    ((true, limits_get role), <[user_id := [now]]> self).
Proof.
  intros Hexp. rewrite is_allowed_eq. cbv zeta.
  rewrite window_limits_get, (clean_all_expired _ _ _ Hexp). simpl.
  pose proof (max_requests_pos role).
  destruct (Z.geb_spec (Z.of_nat 0) (max_requests (limits_get role)));
    [lia | reflexivity].
Qed.

Lemma admitted_after_window_witness :
  all_expired 60 60 (ten_at_zero !!! "u1") = true ∧
  is_allowed ten_at_zero 60 "u1" "user" =
    ((true, limits_get "user"), <["u1" := [60]]> ten_at_zero).
Proof.
  split; [reflexivity|].
  exact (admitted_after_window ten_at_zero 60 "u1" "user" eq_refl).
Defined.

Lemma clean_all_recent now w l :
  forallb (λ t, now - t <? w) l = true → clean now w l = l.
Proof.
  induction l as [|t l IH]; [done|].
  simpl. intros [Ht Hl]%andb_prop. rewrite Ht. by rewrite IH.
Qed.

Local Ltac mem :=
  repeat match goal with H : _ ∈ _ |- _ => revert H end;
  rewrite ?elem_of_app, ?elem_of_cons, ?elem_of_nil; tauto.

(** The verdicts of a run of calls of one caller whose readings, and those
    of the record found, are all less than a window apart. *)
Lemma run_close_together (self : requests) user_id role (ts : list Z) :
  close_together 60 (self !!! user_id ++ ts) = true →
  map snd (run self (calls_of user_id role ts)) =
    map (λ i, Z.of_nat (length (self !!! user_id) + i) <? max_requests (limits_get role))
        (seq 0 (length ts)).
Proof.
  revert self. induction ts as [|t ts IH]; intros self Hclose; [reflexivity|].
  assert (∀ a b, a ∈ self !!! user_id ++ t :: ts → b ∈ self !!! user_id ++ t :: ts →
                 b - a < 60) as Hpair.
  { intros a b Ha Hb. unfold close_together in Hclose.
    rewrite forallb_forall in Hclose.
    apply list_elem_of_In, Hclose in Ha. rewrite forallb_forall in Ha.
    apply list_elem_of_In, Ha in Hb. by apply Z.ltb_lt. }
  assert (clean t 60 (self !!! user_id) = self !!! user_id) as Hclean.
  { apply clean_all_recent, forallb_forall. intros a Ha%list_elem_of_In.
    apply Z.ltb_lt, Hpair; mem. }
  simpl. unfold check. simpl. rewrite is_allowed_eq. cbv zeta.
  rewrite window_limits_get, Hclean, Z.geb_leb, Nat.add_0_r.
  rewrite <- seq_shift, map_map.
  destruct (Z.leb_spec (max_requests (limits_get role))
              (Z.of_nat (length (self !!! user_id)))) as [Hge|Hlt]; simpl.
  - rewrite (proj2 (Z.ltb_ge _ _)) by lia. f_equal.
    rewrite IH.
    + rewrite lookup_total_insert_eq. apply map_ext. intros i.
      rewrite !(proj2 (Z.ltb_ge _ _)) by lia. reflexivity.
    + rewrite lookup_total_insert_eq.
      unfold close_together. apply forallb_forall. intros a Ha%list_elem_of_In.
      apply forallb_forall. intros b Hb%list_elem_of_In.
      apply Z.ltb_lt, Hpair; mem.
  - rewrite (proj2 (Z.ltb_lt _ _)) by lia. f_equal.
    rewrite IH.
    + rewrite lookup_total_insert_eq, length_app. simpl.
      apply map_ext. intros i. do 2 f_equal. lia.
    + rewrite lookup_total_insert_eq.
      unfold close_together. apply forallb_forall. intros a Ha%list_elem_of_In.
      apply forallb_forall. intros b Hb%list_elem_of_In.
      apply Z.ltb_lt, Hpair; mem.
Qed.

(** X3. When a user calls a fresh limiter under one role at readings that
    are all less than a window apart, exactly the first [max_requests]
    calls are admitted and every later one is refused. *)
Theorem burst_admits_first_max (user_id role : string) (ts : list Z) :
  close_together 60 ts = true →
  map snd (run init (calls_of user_id role ts)) =
    map (λ i, Z.of_nat i <? max_requests (limits_get role)) (seq 0 (length ts)).
Proof.
  intros Hclose.
  rewrite (run_close_together init user_id role ts).
  - unfold init. rewrite lookup_total_empty. reflexivity.
  - unfold init. rewrite lookup_total_empty. exact Hclose.
Qed.

Lemma burst_admits_first_max_witness :
  close_together 60 (seqZ 0 12) = true ∧
  map snd (run init (calls_of "u1" "user" (seqZ 0 12))) =
    repeat true 10 ++ [false; false].
Proof.
  split; [reflexivity|].
  exact (burst_admits_first_max "u1" "user" (seqZ 0 12) eq_refl).
Defined.

(** X4. A refused call leaves nothing behind: any later call of the same
    user, under any role, gets the result it would have got had the
    refused call not been made. *)
Theorem refused_call_leaves_no_trace (self : requests) (t t' : Z)
    (user_id role role' : string) :
  fst (fst (is_allowed self t user_id role)) = false →
  t ≤ t' →
  is_allowed (snd (is_allowed self t user_id role)) t' user_id role'
    = is_allowed self t' user_id role'.
Proof.
  intros Hrefused Hle. rewrite (is_allowed_eq self t) in Hrefused |- *.
  cbv zeta in Hrefused |- *.
  destruct (_ >=? _); [|discriminate]. simpl.
  rewrite !is_allowed_eq. cbv zeta.
  rewrite !window_limits_get, lookup_total_insert_eq, clean_clean by assumption.
  rewrite !insert_insert_eq. reflexivity.
Qed.

Lemma refused_call_leaves_no_trace_witness :
  fst (fst (is_allowed ten_at_zero 5 "u1" "user")) = false ∧ 5 ≤ 7 ∧
  is_allowed (snd (is_allowed ten_at_zero 5 "u1" "user")) 7 "u1" "admin"
    = is_allowed ten_at_zero 7 "u1" "admin".
Proof.
  split; [reflexivity|]. split; [lia|].
  apply (refused_call_leaves_no_trace ten_at_zero 5 7 "u1" "user" "admin");
    [reflexivity | lia].
Defined.

(** The verdict and the new record of a user depend on the record of that
    user alone. *)
Lemma is_allowed_local (self self' : requests) now user_id role :
  self !!! user_id = self' !!! user_id →
  fst (is_allowed self now user_id role) = fst (is_allowed self' now user_id role) ∧
  snd (is_allowed self now user_id role) !!! user_id
    = snd (is_allowed self' now user_id role) !!! user_id.
Proof.
  intros Heq. rewrite !is_allowed_eq. cbv zeta. rewrite Heq.
  destruct (_ >=? _); simpl; by rewrite !lookup_total_insert_eq.
Qed.

Lemma is_allowed_other (self : requests) now user_id other role :
  other ≠ user_id →
  snd (is_allowed self now other role) !!! user_id = self !!! user_id.
Proof.
  intros Hne. rewrite is_allowed_eq. cbv zeta.
  destruct (_ >=? _); simpl; by rewrite lookup_total_insert_ne.
Qed.

Lemma run_isolated (self self' : requests) (cs : list call) (user_id : string) :
  self !!! user_id = self' !!! user_id →
  List.filter (λ cv, made_by user_id cv.1) (run self cs)
    = run self' (List.filter (made_by user_id) cs).
Proof.
  revert self self'. induction cs as [|c cs IH]; intros self self' Heq; [done|].
  simpl. destruct (made_by user_id c) eqn:Hm; unfold made_by in Hm.
  - apply bool_decide_eq_true_1 in Hm. simpl.
    unfold check. rewrite Hm.
    destruct (is_allowed_local self self' (at_time c) user_id (as_role c) Heq)
      as [Hv Hs].
    rewrite Hv. f_equal. by apply IH.
  - apply bool_decide_eq_false_1 in Hm.
    apply IH. unfold check. by rewrite is_allowed_other.
Qed.

(** X5. Callers do not share quota: the verdicts a user gets in a sequence
    of calls are those the user would get if the calls of everyone else
    were left out. *)
Theorem other_callers_do_not_interfere (self : requests) (cs : list call)
    (user_id : string) :
  List.filter (λ cv, made_by user_id cv.1) (run self cs)
    = run self (List.filter (made_by user_id) cs).
Proof. by apply run_isolated. Qed.

End TrafficFacts.
(** ** The gate under traffic *)
Module GateTrafficFacts.
Import RateLimiter Traffic AuthGate RateLimiterFacts AuthGateFacts TrafficFacts.

Section Gate.
Context {R : Type} (f : string → string → string → R).

Lemma is_allowed_policy (self : requests) now user_id role :
  snd (fst (is_allowed self now user_id role)) = limits_get role.
Proof. rewrite is_allowed_eq. cbv zeta. by destruct (_ >=? _). Qed.

(** The replies to requests that carry the same well-formed headers are
    read off the verdicts of the limiter. *)
Lemma serve_valid (self : requests) (u r n : string) (ts : list Z) :
  lacks_header (Headers (Some u) (Some r) (Some n)) = false →
  bad_role (Headers (Some u) (Some r) (Some n)) = false →
  fst (serve f self (map (λ t, (t, Headers (Some u) (Some r) (Some n))) ts)) =
    map (λ cv : call * bool,
           if cv.2 then Handled (f u r n) else RateLimited r (limits_get r))
        (run self (calls_of u r ts)).
Proof.
  intros Hl Hb. revert self. induction ts as [|t ts IH]; intros self; [done|].
  simpl.
  destruct (require_auth_checks_limit f self t _ Hl Hb)
    as (u' & r' & n' & [= <- <- <-] & ->).
  specialize (IH (snd (is_allowed self t u r))).
  destruct (serve f _ _) as [rs rl]. simpl in *. rewrite IH.
  unfold check. simpl. rewrite is_allowed_policy. reflexivity.
Qed.

(** X6. Requests of one identity with the three headers and a valid role,
    arriving at a fresh gate less than a window apart: the first
    [max_requests] of them are handled, each by one call of the handler on
    the values of the headers, and every later one gets the 429 reply of
    that role, whose [retry_after] is 60. *)
Theorem gate_handles_first_max (u r n : string) (ts : list Z) :
  lacks_header (Headers (Some u) (Some r) (Some n)) = false →
  bad_role (Headers (Some u) (Some r) (Some n)) = false →
  close_together 60 ts = true →
  fst (serve f init (map (λ t, (t, Headers (Some u) (Some r) (Some n))) ts)) =
    map (λ i, if Z.of_nat i <? max_requests (limits_get r)
              then Handled (f u r n) else RateLimited r (limits_get r))
        (seq 0 (length ts))
  ∧ retry_after (RateLimited (R:=R) r (limits_get r)) = Some 60.
Proof.
  intros Hl Hb Hclose. split.
  - rewrite (serve_valid init u r n ts Hl Hb).
    rewrite <- (map_map snd (λ v : bool,
      if v then Handled (f u r n) else RateLimited r (limits_get r))).
    rewrite (run_close_together init u r ts), map_map;
      unfold init; rewrite lookup_total_empty; [reflexivity | exact Hclose].
  - simpl. by rewrite window_limits_get.
Qed.

End Gate.

Lemma gate_handles_first_max_witness :
  lacks_header valid_user = false ∧ bad_role valid_user = false ∧
  close_together 60 (seqZ 0 11) = true ∧
  fst (serve (λ u r n, n) init (map (λ t, (t, valid_user)) (seqZ 0 11)))
    = repeat (Handled "Ann") 10 ++ [RateLimited "user" user_limit].
Proof.
  split; [reflexivity|]. split; [reflexivity|]. split; [reflexivity|].
  exact (proj1 (gate_handles_first_max (λ u r n, n) "7" "user" "Ann" (seqZ 0 11)
                  eq_refl eq_refl eq_refl)).
Defined.

End GateTrafficFacts.

(** ** The mirrors, beyond the partition *)
Module SnapshotFacts.
Import Py Http Snapshot MirrorFacts.

Section Catalog.
Import ProductCatalog.

Lemma append_product_dict d ps lu :
  append_product (VDict d) (Catalog ps lu)
    = (Ok tt, Catalog (ps ++ [product_entry d]) lu).
Proof. reflexivity. Qed.

Lemma append_product_cases item s :
  (∃ d, item = VDict d) ∨ append_product item s = (Raise AttributeError, s).
Proof. destruct item; try (by right); left; eauto. Qed.

(** The loop of [_load_products], stopped or not: the catalog has grown by
    the entries of the leading items that are objects. *)
Lemma for_each_products (l : list value) ps lu r s' :
  for_each l append_product (Catalog ps lu) = (r, s') →
  ∃ ds, s' = Catalog (ps ++ map product_entry ds) lu ∧
        map VDict ds `prefix_of` l ∧
        (r = Ok tt ↔ map VDict ds = l).
Proof.
  revert ps. induction l as [|item l IH]; intros ps.
  - intros [= <- <-]. exists []. rewrite app_nil_r. done.
  - simpl. unfold mbind at 1, M_bind.
    destruct (append_product_cases item (Catalog ps lu)) as [[d ->]|Hno].
    + rewrite append_product_dict. intros Hrun.
      apply IH in Hrun as (ds & -> & Hpre & Hr).
      exists (d :: ds). split; [by rewrite <- app_assoc|]. split.
      * simpl. by apply prefix_cons.
      * rewrite Hr. simpl. split; [by intros -> | by intros [= ->]].
    + rewrite Hno. intros [= <- <-]. exists []. rewrite app_nil_r.
      split; [done|]. split; [apply prefix_nil|]. done.
Qed.

(** X7. A load of the catalog that returns [True] has replaced the
    products wholesale: whatever was cached before, the catalog now holds
    the entries of the fetched items, all of them objects, in the order
    fetched (with [stock] read from [quantity] and [id] from [product_id],
    an absent key giving [None]), and [last_updated] is the time of the
    load. *)
Theorem load_products_replaces_all fetched now self self' :
  _load_products fetched now self = (Ok true, self') →
  ∃ response data items ds,
    fetched = Ok response ∧ json response = Ok data ∧
    get data "items" (VList []) = Ok items ∧ iter items = Ok (map VDict ds) ∧
    self' = Catalog (map product_entry ds) (Some now).
Proof.
  unfold _load_products. run_m.
  destruct fetched as [response|e]; simpl; [|discriminate].
  destruct (raise_for_status response); simpl; [|discriminate].
  destruct (json response) as [data|e] eqn:Hdata; simpl; [|discriminate].
  destruct (get data "items" (VList [])) as [items|e] eqn:Hitems; simpl;
    [|discriminate].
  destruct (iter items) as [l|e] eqn:Hl; simpl; [|discriminate].
  destruct (for_each l append_product _) as [r s] eqn:Hloop.
  apply for_each_products in Hloop as (ds & -> & _ & Hr).
  destruct r as [[]|e]; simpl; [|discriminate].
  intros [= <-]. exists response, data, items, ds.
  rewrite (proj1 Hr eq_refl). done.
Qed.


End Catalog.
Section Cart.
Import ShoppingCart.
Context `{Runtime}.

Lemma add_item_cases item s :
  (∃ d, item = VDict d) ∨ add_item item s = (Raise AttributeError, s).
Proof. destruct item; try (by right); left; eauto. Qed.

Lemma for_each_items_last_updated (l : list value) s r s' :
  for_each l add_item s = (r, s') → last_updated s' = last_updated s.
Proof.
  revert s. induction l as [|item l IH]; intros s.
  - by intros [= <- <-].
  - simpl. unfold mbind at 1, M_bind.
    destruct (add_item_cases item s) as [[d ->]|Hno].
    + destruct s as [m lu]. rewrite add_item_dict. intros Hrun.
      by apply IH in Hrun.
    + rewrite Hno. by intros [= <- <-].
Qed.

Lemma cart_size_insert (m : gmap string (list cart_item)) k e :
  cart_size (<[k := default [] (m !! k) ++ [e]]> m) = S (cart_size m).
Proof.
  unfold cart_size. destruct (m !! k) as [l|] eqn:Hk; simpl.
  - rewrite <- (insert_delete_eq m k (l ++ [e])).
    rewrite <- (insert_delete_id m k l Hk) at 2.
    rewrite !map_to_list_insert by apply lookup_delete_eq.
    simpl. rewrite length_app. simpl. lia.
  - rewrite map_to_list_insert by assumption. reflexivity.
Qed.

Lemma for_each_dicts_size ds m lu s' :
  for_each (map VDict ds) add_item (Cart m lu) = (Ok tt, s') →
  cart_size (cart_items s') = (cart_size m + length ds)%nat.
Proof.
  revert m. induction ds as [|d ds IH]; intros m.
  - intros [= <-]. simpl. lia.
  - simpl. unfold mbind at 1, M_bind. rewrite add_item_dict.
    intros Hrun. apply IH in Hrun. rewrite Hrun, cart_size_insert. lia.
Qed.

(** X9. A cart load that returns [True] neither loses nor repeats an
    item: the buckets together hold as many entries as items were
    fetched. *)
Theorem load_cart_keeps_every_item fetched now self self' :
  _load_cart fetched now self = (Ok true, self') →
  ∃ response data items ds,
    fetched = Ok response ∧ json response = Ok data ∧
    get data "items" (VList []) = Ok items ∧ iter items = Ok (map VDict ds) ∧
    cart_size (cart_items self') = length ds.
Proof.
  intros Hrun. apply load_cart_true in Hrun
    as (response & data & items & l & s & -> & Hdata & Hitems & Hl & Hloop & ->).
  destruct (for_each_ok _ _ _ Hloop) as [ds ->].
  apply for_each_dicts_size in Hloop.
  exists response, data, items, ds. do 4 (split; [done|]).
  simpl. rewrite Hloop. unfold cart_size. by rewrite map_to_list_empty.
Qed.

Lemma load_products_returns fetched now self :
  ∃ b self',
    ProductCatalog._load_products fetched now self = (Ok b, self') ∧
    ProductCatalog.last_updated self'
      = if b then Some now else ProductCatalog.last_updated self.
Proof.
  unfold ProductCatalog._load_products. run_m.
  destruct fetched as [response|e]; simpl; [|by eexists false, _].
  destruct (raise_for_status response); simpl; [|by eexists false, _].
  destruct (json response) as [data|e]; simpl; [|by eexists false, _].
  destruct (get data "items" (VList [])) as [items|e]; simpl;
    [|by eexists false, _].
  destruct (iter items) as [l|e]; simpl; [|by eexists false, _].
  destruct (for_each l ProductCatalog.append_product _) as [r s] eqn:Hloop.
  apply for_each_products in Hloop as (ds & -> & _ & _).
  destruct r as [[]|e]; simpl; [by eexists true, _ | by eexists false, _].
Qed.

Lemma load_cart_returns fetched now self :
  ∃ b self',
    _load_cart fetched now self = (Ok b, self') ∧
    last_updated self' = if b then Some now else last_updated self.
Proof.
  unfold _load_cart, set_cart_items. run_m.
  destruct fetched as [response|e]; simpl; [|by eexists false, _].
  destruct (raise_for_status response); simpl; [|by eexists false, _].
  destruct (json response) as [data|e]; simpl; [|by eexists false, _].
  destruct (get data "items" (VList [])) as [items|e]; simpl;
    [|by eexists false, _].
  destruct (iter items) as [l|e]; simpl; [|by eexists false, _].
  destruct (for_each l add_item _) as [r s] eqn:Hloop.
  apply for_each_items_last_updated in Hloop. simpl in Hloop.
  destruct r as [[]|e]; simpl; [by eexists true, _ | by eexists false, _].
Qed.

(** X10. Neither mirror lets an exception out of a load: the call returns
    [True] or [False], and [last_updated] is the time of the load after
    [True] and is left as it was after [False]. *)
Theorem loads_never_raise fetched now :
  (∀ self, ∃ b self',
     ProductCatalog._load_products fetched now self = (Ok b, self') ∧
     ProductCatalog.last_updated self'
       = if b then Some now else ProductCatalog.last_updated self)
  ∧ (∀ self, ∃ b self',
     _load_cart fetched now self = (Ok b, self') ∧
     last_updated self' = if b then Some now else last_updated self).
Proof.
  split; intros self; [apply load_products_returns | apply load_cart_returns].
Qed.

End Cart.

Lemma load_products_replaces_all_witness :
  ProductCatalog._load_products two_products "t" ProductCatalog.stocked
    = (Ok true, snd (ProductCatalog._load_products two_products "t"
                       ProductCatalog.stocked)) ∧
  ∃ ds, snd (ProductCatalog._load_products two_products "t" ProductCatalog.stocked)
        = ProductCatalog.Catalog (map product_entry ds) (Some "t").
Proof.
  assert (ProductCatalog._load_products two_products "t" ProductCatalog.stocked
    = (Ok true, snd (ProductCatalog._load_products two_products "t"
                       ProductCatalog.stocked))) as Hrun by reflexivity.
  split; [exact Hrun|].
  destruct (load_products_replaces_all _ _ _ _ Hrun)
    as (_ & _ & _ & ds & _ & _ & _ & _ & Hself).
  exists ds. exact Hself.
Defined.


Lemma load_cart_keeps_every_item_witness :
  ShoppingCart._load_cart (H:=bare_runtime) three_items "t" ShoppingCart.filled
    = (Ok true, snd (ShoppingCart._load_cart (H:=bare_runtime) three_items "t"
                       ShoppingCart.filled)) ∧
  ∃ ds : list (list (string * value)),
    cart_size (ShoppingCart.cart_items
      (snd (ShoppingCart._load_cart (H:=bare_runtime) three_items "t"
              ShoppingCart.filled))) = length ds.
Proof.
  assert (ShoppingCart._load_cart (H:=bare_runtime) three_items "t" ShoppingCart.filled
    = (Ok true, snd (ShoppingCart._load_cart (H:=bare_runtime) three_items "t"
                       ShoppingCart.filled))) as Hrun by (vm_compute; reflexivity).
  split; [exact Hrun|].
  destruct (load_cart_keeps_every_item _ _ _ _ Hrun)
    as (_ & _ & _ & ds & _ & _ & _ & _ & Hsize).
  exists ds. exact Hsize.
Defined.

(** The three fetched cart items make three entries, in two buckets. *)
Example three_items_size :
  cart_size (ShoppingCart.cart_items
    (snd (ShoppingCart._load_cart (H:=bare_runtime) three_items "t"
            ShoppingCart.filled))) = 3%nat.
Proof. vm_compute. reflexivity. Qed.

End SnapshotFacts.
(** ** The assistant, beyond the message list *)
Module OrchestrationFacts.
Import Py ShoppingAssistant ShoppingAssistantFacts SnapshotFacts.

Section Orchestration.
Context `{Runtime}.
Variable _build_system_prompt : t → string → result string.

Lemma refresh_data_eq_aux (e : env) (self : t) :
  ∃ b, refresh_data e self =
    (Ok b,
     Assistant (cfg self)
       (snd (ProductCatalog.refresh (catalog_fetch e) (catalog_now e) (catalog self)))
       (snd (ShoppingCart.refresh (cart_fetch e) (cart_now e) (cart self)))).
Proof.
  unfold ShoppingCart.refresh, ProductCatalog.refresh.
  destruct (load_cart_returns (cart_fetch e) (cart_now e) (cart self))
    as (b1 & c' & Hc & _).
  destruct (load_products_returns (catalog_fetch e) (catalog_now e) (catalog self))
    as (b2 & p' & Hp & _).
  exists (b1 && b2). rewrite Hc, Hp.
  unfold refresh_data, on_cart, on_catalog, ShoppingCart.refresh,
    ProductCatalog.refresh.
  run_m. rewrite Hc. simpl. rewrite Hp. reflexivity.
Qed.

(** X11. [refresh_data] refreshes the cart and then the catalog, the
    catalog also when the cart refresh failed; it never raises, returns
    [True] exactly when both refreshes did, and leaves the configuration
    as it was. *)
Theorem refresh_data_refreshes_both (e : env) (self : t) :
  ∃ b1 b2,
    fst (ShoppingCart.refresh (cart_fetch e) (cart_now e) (cart self)) = Ok b1 ∧
    fst (ProductCatalog.refresh (catalog_fetch e) (catalog_now e) (catalog self))
      = Ok b2 ∧
    refresh_data e self =
      (Ok (b1 && b2),
       Assistant (cfg self)
         (snd (ProductCatalog.refresh (catalog_fetch e) (catalog_now e) (catalog self)))
         (snd (ShoppingCart.refresh (cart_fetch e) (cart_now e) (cart self)))).
Proof.
  unfold ShoppingCart.refresh, ProductCatalog.refresh.
  destruct (load_cart_returns (cart_fetch e) (cart_now e) (cart self))
    as (b1 & c' & Hc & _).
  destruct (load_products_returns (catalog_fetch e) (catalog_now e) (catalog self))
    as (b2 & p' & Hp & _).
  exists b1, b2. rewrite Hc, Hp. do 2 (split; [done|]).
  unfold refresh_data, on_cart, on_catalog, ShoppingCart.refresh,
    ProductCatalog.refresh.
  run_m. rewrite Hc. simpl. rewrite Hp. reflexivity.
Qed.

Lemma refresh_data_returns (e : env) (self : t) :
  ∃ b, refresh_data e self = (Ok b, snd (refresh_data e self)).
Proof.
  destruct (refresh_data_eq_aux e self) as (b & Heq). exists b.
  by rewrite Heq.
Qed.

(** X12. What a call of [get_response] yields is what the building of the
    request from the refreshed assistant, the building of the details, the
    inference call and the extraction yield, in that order: the first
    exception among them is the exception of the call (nothing is tried
    again), and a failed refresh is no error. *)
Theorem get_response_outcome (e : env) (user_message history : value)
    (user_id : string) (w : world) :
  fst (get_response _build_system_prompt e user_message history user_id w) =
    (let self := snd (refresh_data e (assistant w)) in
     req ← _build_chat_request _build_system_prompt self user_message history user_id;
     detail ← _build_chat_detail self req;
     response ← client_chat e detail;
     text ← _extract_response_text response;
     mret (text, cost e BuildRequest + cost e DebugPrint + cost e BuildDetail
                 + cost e Chat)).
Proof.
  destruct (refresh_data_returns e (assistant w)) as [b Hb].
  unfold get_response, during, time_time. run_m. cbv zeta. rewrite Hb. simpl.
  destruct (_build_chat_request _ _ user_message history user_id) as [req|ex];
    simpl; [|reflexivity].
  destruct (_build_chat_detail _ req) as [detail|ex]; simpl; [|reflexivity].
  destruct (client_chat e detail) as [response|ex]; simpl; [|reflexivity].
  destruct (_extract_response_text response) as [s|ex]; simpl; [|reflexivity].
  do 2 f_equal. lia.
Qed.

(** X13. Whether it returns or raises, [get_response] changes the
    assistant by the refresh of the two mirrors and by nothing else. *)
Theorem get_response_only_refreshes (e : env) (user_message history : value)
    (user_id : string) (w : world) :
  assistant (snd (get_response _build_system_prompt e user_message history user_id w))
    = snd (refresh_data e (assistant w)).
Proof.
  destruct (refresh_data_returns e (assistant w)) as [b Hb].
  unfold get_response, during, time_time. run_m. rewrite Hb. simpl.
  destruct (_build_chat_request _ _ user_message history user_id) as [req|ex];
    simpl; [|reflexivity].
  destruct (_build_chat_detail _ req) as [detail|ex]; simpl; [|reflexivity].
  destruct (client_chat e detail) as [response|ex]; simpl; [|reflexivity].
  destruct (_extract_response_text response) as [s|ex]; reflexivity.
Qed.

Lemma history_message_not_system (msg : value) (m : Message) :
  history_message msg = Ok (Some m) → role m ≠ ROLE_SYSTEM.
Proof.
  unfold history_message.
  destruct (getitem msg "role") as [r|e]; [|discriminate]. simpl.
  destruct (upper_method r) as [role_str|e]; [|discriminate]. simpl.
  destruct (String.eqb role_str "USER").
  - destruct (getitem msg "content"); [|discriminate]. by intros [= <-].
  - destruct (bool_decide _); [|discriminate].
    destruct (getitem msg "content"); [|discriminate]. by intros [= <-].
Qed.

Lemma history_message_ok (msg : value) (o : option Message) :
  history_message msg = Ok o → well_formed msg = true.
Proof.
  unfold history_message, well_formed, role_of.
  destruct (getitem msg "role") as [[| | | |r| | |]|e]; try discriminate.
  simpl. rewrite in_model_assistant.
  destruct (String.eqb (upper r) "USER").
  - by destruct (getitem msg "content").
  - destruct (_ || _); [by destruct (getitem msg "content") | done].
Qed.

Lemma history_loop_ok (l : list value) (acc ms : list Message) :
  history_loop l acc = Ok ms →
  Forall (λ msg, well_formed msg = true) l ∧
  ∃ mid, ms = acc ++ mid ∧ (length mid ≤ length l)%nat ∧
         Forall (λ m, role m ≠ ROLE_SYSTEM) mid.
Proof.
  revert acc. induction l as [|msg l IH]; intros acc.
  - intros [= <-]. split; [constructor|]. exists []. by rewrite app_nil_r.
  - simpl. destruct (history_message msg) as [o|e] eqn:Hmsg; [|discriminate].
    simpl. intros Hloop. apply IH in Hloop as (Hall & mid & -> & Hlen & Hmid).
    split; [constructor; [by eapply history_message_ok | done]|].
    destruct o as [m|].
    + exists (m :: mid). rewrite <- app_assoc. split; [done|].
      split; [simpl; lia|]. constructor; [by eapply history_message_not_system|done].
    + exists mid. split; [done|]. split; [simpl; lia | done].
Qed.

(** X14. Whenever the message list is built, for any history at all: it
    is the system message with the prompt, then at most one message for
    each entry of the history, none of them a system message, then the
    user message with the text as given. *)
Theorem chat_messages_frame (self : t) (user_message history : value)
    (user_id : string) (msgs : list Message) :
  chat_messages _build_system_prompt self user_message history user_id = Ok msgs →
  ∃ prompt l mid,
    _build_system_prompt self user_id = Ok prompt ∧ iter history = Ok l ∧
    msgs = Msg ROLE_SYSTEM [Text (VStr prompt)] :: mid
             ++ [Msg ROLE_USER [Text user_message]] ∧
    (length mid ≤ length l)%nat ∧
    Forall (λ m, role m ≠ ROLE_SYSTEM) mid.
Proof.
  unfold chat_messages.
  destruct (_build_system_prompt self user_id) as [prompt|e]; [|discriminate].
  simpl. destruct (iter history) as [l|e]; [|discriminate]. simpl.
  destruct (history_loop l _) as [ms|e] eqn:Hloop; [|discriminate]. simpl.
  intros [= <-]. apply history_loop_ok in Hloop as (_ & mid & -> & Hlen & Hmid).
  by exists prompt, l, mid.
Qed.

(** X15. With the prompt built, the message list is built for a history
    list exactly when every entry of it is an object with a text as role
    and, if the role is one of the three mapped ones, with a content; any
    other entry makes the call raise. *)
Theorem chat_messages_built_iff (self : t) (user_message : value) (l : list value)
    (user_id prompt : string) :
  _build_system_prompt self user_id = Ok prompt →
  (∃ msgs, chat_messages _build_system_prompt self user_message (VList l) user_id
             = Ok msgs)
  ↔ Forall (λ msg, well_formed msg = true) l.
Proof.
  intros Hprompt. unfold chat_messages. rewrite Hprompt. simpl. split.
  - intros [msgs Hm].
    destruct (history_loop l _) as [ms|e] eqn:Hloop; [|discriminate].
    by apply history_loop_ok in Hloop as [Hall _].
  - intros Hall. rewrite (history_loop_well_formed l _ Hall). simpl. eauto.
Qed.

Lemma fold_getitem_raise (keys : list string) (e : exn) :
  fold_left (λ r key, r ≫= λ v, getitem v key) keys (Raise e) = Raise e.
Proof. induction keys as [|k keys IH]; [done | exact IH]. Qed.

(** X16. [ConfigLoader.get] walks the keys from the left: looking up a
    path is looking up its first part and then the rest in what was
    found, and a key that is missing (or met below a value that is no
    object) makes the whole lookup raise. *)
Theorem cfg_get_app (self : t) (ks1 ks2 : list string) :
  cfg_get self (ks1 ++ ks2) =
    cfg_get self ks1 ≫= λ v, cfg_get (Assistant v (catalog self) (cart self)) ks2.
Proof.
  unfold cfg_get. rewrite fold_left_app. simpl.
  destruct (fold_left _ ks1 (Ok (cfg self))) as [v|e]; simpl; [reflexivity|].
  apply fold_getitem_raise.
Qed.

End Orchestration.

Lemma chat_messages_frame_witness :
  chat_messages (H:=bare_runtime) (λ _ _, Ok "P") sample (VStr "hello") (VList [shouted; tool_entry]) "7"
    = Ok [Msg ROLE_SYSTEM [Text (VStr "P")]; Msg ROLE_USER [Text (VStr "hi")];
          Msg ROLE_USER [Text (VStr "hello")]] ∧
  ∃ mid, [Msg ROLE_SYSTEM [Text (VStr "P")]; Msg ROLE_USER [Text (VStr "hi")];
          Msg ROLE_USER [Text (VStr "hello")]]
         = Msg ROLE_SYSTEM [Text (VStr "P")] :: mid ++ [Msg ROLE_USER [Text (VStr "hello")]]
       ∧ (length mid ≤ 2)%nat.
Proof.
  assert (chat_messages (H:=bare_runtime) (λ _ _, Ok "P") sample (VStr "hello")
            (VList [shouted; tool_entry]) "7"
    = Ok [Msg ROLE_SYSTEM [Text (VStr "P")]; Msg ROLE_USER [Text (VStr "hi")];
          Msg ROLE_USER [Text (VStr "hello")]]) as Hrun by reflexivity.
  split; [exact Hrun|].
  destruct (chat_messages_frame (H:=bare_runtime) _ _ _ _ _ _ Hrun)
    as (prompt & l & mid & Hp & Hl & Hmsgs & Hlen & _).
  injection Hp as <-. injection Hl as <-.
  exists mid. split; [exact Hmsgs | exact Hlen].
Defined.

Lemma chat_messages_built_iff_witness :
  (λ (_ : t) (_ : string), Ok "P") sample "7" = Ok "P" ∧
  ((∃ msgs, chat_messages (H:=bare_runtime) (λ _ _, Ok "P") sample (VStr "hello") (VList [role_null]) "7"
              = Ok msgs)
   ↔ Forall (λ msg, well_formed (H:=bare_runtime) msg = true) [role_null]).
Proof.
  split; [reflexivity|].
  exact (chat_messages_built_iff (H:=bare_runtime) (λ _ _, Ok "P") sample (VStr "hello") [role_null]
           "7" "P" eq_refl).
Defined.

End OrchestrationFacts.
(** ** The routes *)
Module GatewayFacts.
Import Py AuthGate ShoppingAssistant Gateway AuthGateFacts MirrorFacts.

(** A request the gate refuses (401, 400 or 429) does not reach the
    handler: the state the handler works on is left as it was.  A request
    the gate lets through is handled once, on the user id of its header;
    the reply and the state are those of the handler. *)
Theorem refused_request_reaches_no_handler {A S} (handler : string → S → A * S)
    (rl : RateLimiter.requests) (now : Z) (h : headers) (s : S) :
  (is_Some (status_code (route handler rl now h s).1.1) →
     (route handler rl now h s).2 = s)
  ∧ (∀ a, (route handler rl now h s).1.1 = Handled a →
       ∃ user_id, X_User_ID h = Some user_id ∧
         handler user_id s = (a, (route handler rl now h s).2)).
Proof.
  unfold route.
  destruct (lacks_header h) eqn:Hl.
  { rewrite require_auth_lacks_header by assumption. simpl. by split. }
  destruct (bad_role h) eqn:Hb.
  { destruct (require_auth_bad_role (λ user_id _ _, handler user_id) rl now h Hl Hb)
      as (r & _ & ->). simpl. by split. }
  destruct (require_auth_checks_limit (λ user_id _ _, handler user_id) rl now h Hl Hb)
    as (u & r & n & -> & ->).
  destruct (fst (fst (RateLimiter.is_allowed rl now u r))); simpl; [|by split].
  destruct (handler u s) as [a s'] eqn:Hrun. simpl. split.
  - by intros [c [=]].
  - intros a' [= <-]. by exists u.
Qed.

Lemma refused_request_reaches_no_handler_witness :
  is_Some (status_code (route (λ _ (n : nat), (tt, S n)) RateLimiter.init 0
                          superadmin 5%nat).1.1) ∧
  (route (λ _ (n : nat), (tt, S n)) RateLimiter.init 0 superadmin 5%nat).2 = 5%nat.
Proof.
  assert (is_Some (status_code (route (λ _ (n : nat), (tt, S n)) RateLimiter.init 0
                                  superadmin 5%nat).1.1)) as Hs by (by eexists).
  split; [exact Hs|].
  exact (proj1 (refused_request_reaches_no_handler (λ _ (n : nat), (tt, S n))
                  RateLimiter.init 0 superadmin 5%nat) Hs).
Defined.

Section Routes.
Context `{Runtime}.
Variable float_is_zero : string → bool.
Variable _build_system_prompt : t → string → result string.

(** X17. A chat request whose body is empty (a false value) or an object
    without the key "message" is answered 400 whatever the upstream and
    the inference service would do: nothing is refreshed, nothing is
    sent, the assistant and the clock are as before. *)
Theorem chat_without_message (e : env) (data : value) (user_id : string)
    (s : server) (a : t) :
  installed s = Some a →
  truth float_is_zero data = false ∨
    (∃ d, data = VDict d ∧ assoc "message" d = None) →
  chat float_is_zero _build_system_prompt e (Ok data) user_id s
    = (MissingMessage, s).
Proof.
  intros Ha Hdata. destruct s as [o wl]. simpl in Ha. subst o.
  unfold chat, chat_body. run_m.
  destruct Hdata as [Hfalse | (d & -> & Hnone)].
  - rewrite Hfalse. reflexivity.
  - destruct d as [|kv d]; [reflexivity|].
    unfold not_in, contains. rewrite Hnone.
    rewrite bool_decide_eq_false_2; [reflexivity|]. by intros [x [=]].
Qed.

(** X18. A chat request whose body is an object with a "message" is
    answered from one call of [get_response] on that message, the history
    of the body (the empty list when the body has none) and the user id:
    200 with the text and the elapsed time when the call returns, 500
    when it raises; the assistant and the clock are left as that call
    left them. *)
Theorem chat_with_message (e : env) (d : list (string * value))
    (user_message : value) (user_id : string) (s : server) (a : t) :
  installed s = Some a →
  assoc "message" d = Some user_message →
  let called :=
    get_response _build_system_prompt e user_message
      (default (VList []) (assoc "history" d)) user_id (World a (wall s)) in
  chat float_is_zero _build_system_prompt e (Ok (VDict d)) user_id s
    = (match fst called with
       | Ok r => ChatReply r.1 r.2
       | Raise ex => ServerError ex
       end,
       Server (Some (assistant (snd called))) (clock (snd called))).
Proof.
  intros Ha Hm. destruct s as [o wl]. simpl in Ha. subst o. cbv zeta.
  assert (truth float_is_zero (VDict d) = true) as Ht
    by (destruct d; [discriminate | reflexivity]).
  unfold chat, chat_body. remember (VDict d) as data eqn:Hd.
  simpl. run_m. rewrite Ht. simpl. subst data.
  unfold not_in. simpl. rewrite Hm.
  rewrite bool_decide_eq_true_2 by (eexists; reflexivity). simpl.
  destruct (get_response _ _ _ _ _ _) as [[r|ex] w]; reflexivity.
Qed.

(** X19. With the assistant installed, [get_products] always answers 200
    with the products of the catalog and their number as [count].  Unless
    the [refresh] argument is "true" in some casing the upstream is not
    consulted: the reply shows the cached products and nothing changes.
    When a refresh is asked for and fails before the body is decoded, the
    reply is still 200 and shows the products cached before. *)
Theorem get_products_count (refresh_arg : option string)
    (fetched : result Http.response) (now : string) (s : server) (a : t) :
  installed s = Some a →
  let cached :=
    ProductsReply (ProductCatalog.products (catalog a))
      (Z.of_nat (length (ProductCatalog.products (catalog a))))
      (ProductCatalog.last_updated (catalog a)) in
  (∃ ps lu, fst (get_products refresh_arg fetched now s)
              = ProductsReply ps (Z.of_nat (length ps)) lu)
  ∧ (lower (default "false" refresh_arg) ≠ "true" →
       get_products refresh_arg fetched now s = (cached, s))
  ∧ (match fetched with
     | Ok response =>
         Http.raise_for_status response ≠ Ok tt ∨ ∃ e, Http.json response = Raise e
     | Raise _ => True
     end →
     get_products refresh_arg fetched now s = (cached, s)).
Proof.
  intros Ha. destruct s as [o wl]. simpl in Ha. subst o. cbv zeta.
  unfold get_products. simpl. split; [by eexists _, _|]. split.
  - intros Hno. apply String.eqb_neq in Hno. rewrite Hno. by destruct a.
  - intros Hfail.
    rewrite (proj1 (failure_before_decoding_keeps_cache fetched now Hfail) (catalog a)).
    simpl. destruct (String.eqb _ _); by destruct a.
Qed.

(** X20. A login whose body is empty or is an object that lacks
    "username" or "password" is answered 400 whatever the upstream would
    answer. *)
Theorem login_without_fields (data : value) (upstream upstream' : posted) :
  truth float_is_zero data = false ∨
    (∃ d, data = VDict d ∧ (assoc "username" d = None ∨ assoc "password" d = None)) →
  login float_is_zero (Ok data) upstream = MissingFields
  ∧ login float_is_zero (Ok data) upstream' = MissingFields.
Proof.
  assert (∀ up,
    truth float_is_zero data = false ∨
      (∃ d, data = VDict d ∧ (assoc "username" d = None ∨ assoc "password" d = None)) →
    login float_is_zero (Ok data) up = MissingFields) as Hone.
  { intros up [Hfalse | (d & -> & Hnone)]; unfold login.
    - simpl. rewrite Hfalse. reflexivity.
    - destruct (truth float_is_zero (VDict d)) eqn:Ht;
        remember (VDict d) as data eqn:Hd; simpl; rewrite Ht; [|reflexivity].
      simpl. subst data. unfold not_in, contains.
      destruct (assoc "username" d) as [x|] eqn:Hu.
      + destruct Hnone as [[=]|Hp]. rewrite Hp.
        rewrite (bool_decide_eq_true_2 (is_Some (Some x))) by (eexists; reflexivity).
        reflexivity.
      + rewrite (bool_decide_eq_false_2 (is_Some (@None value)));
          [reflexivity|]. by intros [y [=]]. }
  intros Hdata. split; by apply Hone.
Qed.

(** X21. A login with both fields: it is answered 200 only when the
    upstream answered 200 with an object, whose "userId", "userName" and
    "role" are passed on ([None] for an absent one); any other status of
    the upstream, a server error included, is answered 401 with that
    status; a time-out is answered 504. *)
Theorem login_outcomes (d : list (string * value)) (u p : value) (upstream : posted) :
  assoc "username" d = Some u → assoc "password" d = Some p →
  (∀ i n r, login float_is_zero (Ok (VDict d)) upstream = LoginOk i n r ↔
     ∃ response fields,
       upstream = Posted (Ok response) ∧ Http.status response = 200 ∧
       Http.json response = Ok (VDict fields) ∧
       i = default VNone (assoc "userId" fields) ∧
       n = default VNone (assoc "userName" fields) ∧
       r = default VNone (assoc "role" fields))
  ∧ (∀ response, upstream = Posted (Ok response) → Http.status response ≠ 200 →
       login float_is_zero (Ok (VDict d)) upstream
         = InvalidLogin (Http.status response))
  ∧ (upstream = TimedOut →
       login float_is_zero (Ok (VDict d)) upstream = LoginTimeout).
Proof.
  intros Hu Hp.
  assert (login float_is_zero (Ok (VDict d)) upstream =
    match upstream with
    | TimedOut => LoginTimeout
    | Posted (Raise _) => LoginError
    | Posted (Ok response) =>
        if Http.status response =? 200 then
          match Http.json response with
          | Ok (VDict fields) =>
              LoginOk (default VNone (assoc "userId" fields))
                      (default VNone (assoc "userName" fields))
                      (default VNone (assoc "role" fields))
          | _ => LoginError
          end
        else InvalidLogin (Http.status response)
    end) as ->.
  { assert (truth float_is_zero (VDict d) = true) as Ht
      by (destruct d; [discriminate | reflexivity]).
    unfold login. remember (VDict d) as data eqn:Hd.
    simpl. rewrite Ht. simpl. subst data.
    unfold not_in. simpl. rewrite Hu, Hp.
    rewrite !bool_decide_eq_true_2 by (eexists; reflexivity). simpl.
    destruct upstream as [|[response|ex]]; try reflexivity.
    destruct (Http.status response =? 200); [|reflexivity].
    destruct (Http.json response) as [[]|ex]; reflexivity. }
  split; [|split].
  - intros i n r. split.
    + destruct upstream as [|[response|ex]]; try discriminate.
      destruct (Z.eqb_spec (Http.status response) 200) as [Hs|Hs]; [|discriminate].
      destruct (Http.json response) as [[| | | | | |fields|]|ex] eqn:Hj;
        try discriminate.
      intros [= <- <- <-]. by exists response, fields.
    + intros (response & fields & -> & Hs & Hj & -> & -> & ->).
      rewrite Hs, Hj. reflexivity.
  - intros response -> Hs. apply Z.eqb_neq in Hs. by rewrite Hs.
  - by intros ->.
Qed.

End Routes.

Lemma chat_without_message_witness :
  installed up = Some sample ∧ truth only_plain_zero (VDict []) = false ∧
  chat (H:=bare_runtime) only_plain_zero (λ _ _, Ok "P") sample_env empty_body "7" up
    = (MissingMessage, up).
Proof.
  split; [reflexivity|]. split; [reflexivity|].
  exact (chat_without_message (H:=bare_runtime) only_plain_zero (λ _ _, Ok "P")
           sample_env (VDict []) "7" up sample eq_refl (or_introl eq_refl)).
Defined.

Lemma chat_with_message_witness :
  installed up = Some sample ∧
  assoc "message" [("message", VStr "hello")] = Some (VStr "hello") ∧
  chat (H:=bare_runtime) only_plain_zero (λ _ _, Ok "P") sample_env hello_body "7" up
    = (ChatReply "Hi" 5, Server (Some sample) 113).
Proof.
  split; [reflexivity|]. split; [reflexivity|].
  refine (eq_trans (chat_with_message (H:=bare_runtime) only_plain_zero
    (λ _ _, Ok "P") sample_env [("message", VStr "hello")] (VStr "hello") "7" up
    sample eq_refl eq_refl) _).
  vm_compute. reflexivity.
Defined.

Lemma get_products_count_witness :
  installed up = Some sample ∧ lower (default "false" (Some "no")) ≠ "true" ∧
  get_products (Some "no") Http.three_items "t" up = (ProductsReply [] 0 None, up).
Proof.
  split; [reflexivity|]. split; [discriminate|].
  refine (proj1 (proj2 (get_products_count (H:=bare_runtime) (Some "no")
                          Http.three_items "t" up sample eq_refl)) _).
  discriminate.
Defined.

Lemma login_without_fields_witness :
  truth only_plain_zero (VDict []) = false ∧
  login only_plain_zero empty_body upstream_accepts = MissingFields.
Proof.
  split; [reflexivity|].
  exact (proj1 (login_without_fields only_plain_zero (VDict []) upstream_accepts
                  upstream_unavailable (or_introl eq_refl))).
Defined.

Lemma login_outcomes_witness :
  assoc "username" [("username", VStr "john.doe"); ("password", VStr "secret")]
    = Some (VStr "john.doe") ∧
  assoc "password" [("username", VStr "john.doe"); ("password", VStr "secret")]
    = Some (VStr "secret") ∧
  login only_plain_zero credentials upstream_unavailable = InvalidLogin 503.
Proof.
  split; [reflexivity|]. split; [reflexivity|].
  refine (proj1 (proj2 (login_outcomes only_plain_zero
            [("username", VStr "john.doe"); ("password", VStr "secret")]
            (VStr "john.doe") (VStr "secret") upstream_unavailable
            eq_refl eq_refl)) _ eq_refl _).
  discriminate.
Defined.

(** The upstream accepts the credentials: the identity it names is passed
    on; it is down: the caller is told the credentials are wrong. *)
Example login_replies :
  login only_plain_zero credentials upstream_accepts
    = LoginOk (VInt 7) (VStr "Ann") (VStr "user") ∧
  login_status (login only_plain_zero credentials upstream_unavailable) = 401 ∧
  login_status (login only_plain_zero credentials TimedOut) = 504.
Proof. repeat split. Qed.

End GatewayFacts.
